(** * The component model of the chart engine (src/model/Component.ts)

    A shallow embedding of [ComponentModel]: how a component's option is
    completed from the theme and the class defaults ([mergeDefaultAndTheme]),
    how it is patched ([mergeOption]), how the default option of a class is
    collected along its [superClass] chain ([getDefaultOption]), and how the
    dependency list of a main type is computed ([getDependencies]).

    Option trees are JSON-like values.  An object is an association list in
    insertion order whose first binding of a key is the property; numbers are
    integers.  Only own properties are modelled: there is no prototype chain
    behind an option object. *)

From stdpp Require Import gmap strings list.
From Stdlib Require Import ZArith Ascii DecimalString.

Local Set Warnings "-register-all".
Local Open Scope string_scope.

(** ** Option values *)

Inductive value : Type :=
| VUndefined
| VNull
| VBool (b : bool)
| VNum (n : Z)
| VStr (s : string)
| VArr (items : list value)
| VObj (fields : list (string * value)).

(** [ComponentOption] and every other plain object. *)
Definition obj : Type := list (string * value).

(** [o[key]], with [None] for a key that [o] does not have. *)
Fixpoint get_prop (key : string) (o : obj) : option value :=
  match o with
  | [] => None
  | (k, v) :: rest => if decide (k = key) then Some v else get_prop key rest
  end.

(** [key in o] *)
Definition has_prop (key : string) (o : obj) : bool :=
  match get_prop key o with
  | Some _ => true
  | None => false
  end.

(** [o[key] = v]: an existing property keeps its place, a new one goes last. *)
Fixpoint set_prop (key : string) (v : value) (o : obj) : obj :=
  match o with
  | [] => [(key, v)]
  | (k, w) :: rest =>
      if decide (k = key) then (k, v) :: rest else (k, w) :: set_prop key v rest
  end.

Definition keys (o : obj) : list string := map fst o.

(** A plain object, as opposed to an array or a primitive: the only kind of
    property [merge] descends into. *)
Definition is_plain_object (v : value) : bool :=
  match v with
  | VObj _ => true
  | _ => false
  end.

(** [undefined] for an absent object. *)
Definition of_optional (o : option obj) : value :=
  match o with
  | Some fields => VObj fields
  | None => VUndefined
  end.

(** ** The merge primitive (zrender's core/util) *)

Module zrUtil.

(** Modelled from the spec: [clone], the deep copy of zrender's core/util
    (not among the sources).  Values carry no identity, so the copy of a
    value is that value. *)
Definition clone (v : value) : value := v.

(** One step of [merge]'s [for (key in source)] loop on [target]: both
    properties are plain objects and the merge recurs into the target's
    ([recur]), or the source's property is copied when [overwrite] is set
    or [target] lacks the key. *)
Definition merge_prop (overwrite : bool) (key : string) (sourceProp : value)
    (recur : obj -> obj) (target : obj) : obj :=
  match sourceProp, get_prop key target with
  | VObj _, Some (VObj targetProp) =>
      set_prop key (VObj (recur targetProp)) target
  | _, _ =>
      if overwrite || negb (has_prop key target)
      then set_prop key (clone sourceProp) target
      else target
  end.

(** The own enumerable key of the [i]-th item of an array. *)
Definition index_key (i : nat) : string :=
  NilEmpty.string_of_uint (Nat.to_uint i).

(** Modelled from the spec: [merge(target, source, overwrite)], the generic
    recursive merge primitive of zrender's core/util (not among the
    sources): recursive on nested objects, arrays replaced wholesale.  The
    target is a plain object, as at every call in Component.ts; the result
    is the target after the call.  A source that is not an object leaves
    the target alone; an array source is enumerated by its indices. *)
Fixpoint merge (target : obj) (source : value) (overwrite : bool)
    {struct source} : obj :=
  match source with
  | VObj fields =>
      (fix each_key (l : list (string * value)) (tgt : obj) : obj :=
         match l with
         | [] => tgt
         | (key, sourceProp) :: rest =>
             each_key rest
               (merge_prop overwrite key sourceProp
                  (fun targetProp => merge targetProp sourceProp overwrite) tgt)
         end) fields target
  | VArr items =>
      (fix each_index (i : nat) (l : list value) (tgt : obj) : obj :=
         match l with
         | [] => tgt
         | sourceProp :: rest =>
             each_index (S i) rest
               (merge_prop overwrite (index_key i) sourceProp
                  (fun targetProp => merge targetProp sourceProp overwrite) tgt)
         end) 0%nat items target
  | _ => target
  end.

(** The [for (key in source)] loop over the properties [l] of a source. *)
Fixpoint merge_fields (overwrite : bool) (l : obj) (target : obj) : obj :=
  match l with
  | [] => target
  | (key, sourceProp) :: rest =>
      merge_fields overwrite rest
        (merge_prop overwrite key sourceProp
           (fun targetProp => merge targetProp sourceProp overwrite) target)
  end.

(** The own enumerable properties of a value: those [merge] reads from a
    source. *)
Fixpoint indexed (i : nat) (l : list value) : obj :=
  match l with
  | [] => []
  | v :: rest => (index_key i, v) :: indexed (S i) rest
  end.

Definition enumerable (v : value) : obj :=
  match v with
  | VObj fields => fields
  | VArr items => indexed 0 items
  | _ => []
  end.

(** What [merge] leaves under one key, from the target's property [t] and
    the source's property [s]. *)
Definition merged_prop (overwrite : bool) (t s : option value) : option value :=
  match s with
  | None => t
  | Some sv =>
      match sv, t with
      | VObj _, Some (VObj tf) => Some (VObj (merge tf sv overwrite))
      | _, Some tv => if overwrite then Some sv else Some tv
      | _, None => Some sv
      end
  end.

(** [indexOf(array, value)]: the first position of [value], or -1. *)
Fixpoint indexOf (array : list string) (v : string) : Z :=
  match array with
  | [] => (-1)%Z
  | x :: rest =>
      if decide (x = v) then 0%Z
      else let i := indexOf rest v in
           if (i <? 0)%Z then (-1)%Z else (i + 1)%Z
  end.

End zrUtil.

(** ** Classes and their registry (util/clazz) *)

Module clazz.

(** A component class as Component.ts reads it: the marker
    [isExtendedClass] tests, [clz.prototype.defaultOption],
    [clz.prototype.dependencies] and [clz.superClass].  An absent property
    is [None]. *)
Inductive Constructor : Type := MkConstructor {
  IS_EXTENDED_CLASS : bool;
  prototype_defaultOption : option obj;
  prototype_dependencies : option (list string);
  superClass : option Constructor
}.

(** Modelled from the spec: [isExtendedClass] of util/clazz (not among the
    sources): [extend] marks the constructor it produces as extended. *)
Definition isExtendedClass (clz : Constructor) : bool := IS_EXTENDED_CLASS clz.

Record ComponentTypeInfo : Type := { main : string; sub : string }.

(** The pieces of a string between its dots. *)
Fixpoint split_dot (s : string) : list string :=
  match s with
  | EmptyString => [""]
  | String c rest =>
      if Ascii.eqb c "."%char
      then "" :: split_dot rest
      else match split_dot rest with
           | [] => [String c ""]
           | piece :: more => String c piece :: more
           end
  end.

(** Modelled from the spec: [parseClassType] of util/clazz (not among the
    sources): an identifier has the form "main" or "main.sub"; parsing is
    total and a missing part is the empty wildcard. *)
Definition parseClassType (componentType : string) : ComponentTypeInfo :=
  let typeArr := split_dot componentType in
  {| main := nth 0 typeArr ""; sub := nth 1 typeArr "" |}.

(** The registry: the registered constructors with the (main, sub) pair
    each one is registered under, in registration order. *)
Definition storage : Type := list (ComponentTypeInfo * Constructor).

(** Modelled from the spec: [getClassesByMainType] of util/clazz (not among
    the sources): every constructor registered under the main type, across
    all subtypes, in registration order. *)
Definition getClassesByMainType (registered : storage) (componentType : string)
    : list Constructor :=
  map snd (filter (fun entry => main (fst entry) = componentType) registered).

End clazz.

(** ** Layout parameters (util/layout) *)

(** [layoutMode: string | {ignoreSize: boolean}], or not declared. *)
Inductive LayoutMode : Type :=
| LayoutMode_undefined
| LayoutMode_name (s : string)
| LayoutMode_object (ignoreSize : bool).

(** The test [if (layoutMode)]. *)
Definition layoutMode_declared (layoutMode : LayoutMode) : bool :=
  match layoutMode with
  | LayoutMode_undefined => false
  | LayoutMode_name s => negb (String.eqb s "")
  | LayoutMode_object _ => true
  end.

Module layout.

Definition LOCATION_PARAMS : list string :=
  ["left"; "right"; "top"; "bottom"; "width"; "height"].

(** Modelled from the spec: [getLayoutParams] of util/layout (not among the
    sources): the position and size fields (left, right, top, bottom,
    width, height) that the option has, extracted into a new object. *)
Definition getLayoutParams (source : obj) : obj :=
  fold_left
    (fun target name =>
       match get_prop name source with
       | Some v => set_prop name v target
       | None => target
       end)
    LOCATION_PARAMS [].

(** [mergeLayoutParam(targetOption, newOption, layoutMode)] of util/layout:
    the reconciliation of box fields is external to the component model, an
    interface whose result is the target option after the call. *)
Class Reconcile : Type :=
  mergeLayoutParam : obj -> obj -> LayoutMode -> obj.

End layout.

(** ** The component model *)

Record ThemeModel : Type := { theme_get : string -> value }.

Record GlobalModel : Type := { getTheme : ThemeModel }.

(** An instance.  [addr] is the identity of the object, [this_option] the
    [option] field inherited from [Model], [ctor] is [this.constructor];
    [optionUpdated] is the method the instance answers to under that name
    (its effect on the instance's option object).  Fields that no modelled
    method reads ([parentModel], [coordinateSystem], [__viewId]) are left
    out. *)
Inductive ComponentModel : Type := MkComponentModel {
  addr : positive;
  ctor : clazz.Constructor;
  type : string;
  id : string;
  name : string;
  mainType : string;
  subType : string;
  componentIndex : Z;
  this_option : obj;
  ecModel : GlobalModel;
  dependentModels : list (string * list ComponentModel);
  uid : string;
  layoutMode : LayoutMode;
  optionUpdated : obj -> bool -> obj -> obj
}.

(** What [inner(this)] keeps: the [defaultOption] field of the private record
    of each host object that has one, under the identity of the host. *)
Abbreviation inner_fields := (gmap positive obj).

Module ComponentModel_prototype.

(** [protoInitialize]: the fields set on the prototype. *)
Definition type : string := "component".
Definition id : string := "".
Definition name : string := "".
Definition mainType : string := "".
Definition subType : string := "".
Definition componentIndex : Z := 0.

(** [optionUpdated(newCptOption, isInit) {}] *)
Definition optionUpdated (newCptOption : obj) (isInit : bool) (option : obj) : obj :=
  option.

End ComponentModel_prototype.

(** The class [ComponentModel] itself: declared directly, with no default
    option, dependencies or [superClass] of its own. *)
Definition ComponentModel_class : clazz.Constructor :=
  clazz.MkConstructor false None None None.

(** [new ComponentModel(option, parentModel, ecModel)]: [Model]'s constructor
    stores the option and the global model, the field initializer sets
    [dependentModels = {}], the constructor sets [uid]; every other field is
    read from the prototype.  [a] is the fresh object, [fresh_uid] what
    [getUID] returns. *)
Definition new_ComponentModel (a : positive) (fresh_uid : string)
    (option : obj) (ecModel : GlobalModel) : ComponentModel :=
  {| addr := a;
     ctor := ComponentModel_class;
     type := ComponentModel_prototype.type;
     id := ComponentModel_prototype.id;
     name := ComponentModel_prototype.name;
     mainType := ComponentModel_prototype.mainType;
     subType := ComponentModel_prototype.subType;
     componentIndex := ComponentModel_prototype.componentIndex;
     this_option := option;
     ecModel := ecModel;
     dependentModels := [];
     uid := fresh_uid;
     layoutMode := LayoutMode_undefined;
     optionUpdated := ComponentModel_prototype.optionUpdated |}.

Definition with_option (this : ComponentModel) (option : obj) : ComponentModel :=
  {| addr := addr this; ctor := ctor this; type := type this; id := id this;
     name := name this; mainType := mainType this; subType := subType this;
     componentIndex := componentIndex this; this_option := option;
     ecModel := ecModel this; dependentModels := dependentModels this;
     uid := uid this; layoutMode := layoutMode this;
     optionUpdated := optionUpdated this |}.

(** The [while (clz)] loop of [getDefaultOption]: the default options found
    from [clz] up its [superClass] chain, the most derived first. *)
Fixpoint optList (clz : clazz.Constructor) : list obj :=
  let rest :=
    match clazz.superClass clz with
    | Some super => optList super
    | None => []
    end in
  match clazz.prototype_defaultOption clz with
  | Some opt => opt :: rest
  | None => rest
  end.

(** The [for (i = optList.length - 1; i >= 0; i--)] loop: the list is merged
    into an empty object from its last item to its first, overwriting. *)
Definition merge_optList (l : list obj) : obj :=
  foldr (fun opt defaultOption => zrUtil.merge defaultOption (VObj opt) true) [] l.

(** [getDefaultOption()]: the result and the private fields afterwards
    ([None] is [undefined]). *)
Definition getDefaultOption (this : ComponentModel) (fields : inner_fields)
    : option obj * inner_fields :=
  let ctor := ctor this in
  if negb (clazz.isExtendedClass ctor)
  then (clazz.prototype_defaultOption ctor, fields)
  else
    match fields !! addr this with
    | Some defaultOption => (Some defaultOption, fields)
    | None =>
        let defaultOption := merge_optList (optList ctor) in
        (Some defaultOption, <[addr this := defaultOption]> fields)
    end.

Section component.

Context `{!layout.Reconcile}.

(** [mergeDefaultAndTheme(option, ecModel)]: the option object after the
    call, and the private fields after it. *)
Definition mergeDefaultAndTheme (this : ComponentModel) (option : obj)
    (ecModel : GlobalModel) (fields : inner_fields) : obj * inner_fields :=
  let layoutMode := layoutMode this in
  let inputPositionParams :=
    if layoutMode_declared layoutMode then layout.getLayoutParams option else [] in
  let themeModel := getTheme ecModel in
  let option := zrUtil.merge option (theme_get themeModel (mainType this)) false in
  let '(defaultOption, fields) := getDefaultOption this fields in
  let option := zrUtil.merge option (of_optional defaultOption) false in
  let option :=
    if layoutMode_declared layoutMode
    then layout.mergeLayoutParam option inputPositionParams layoutMode
    else option in
  (option, fields).

(** [init(option, parentModel, ecModel)] *)
Definition init (this : ComponentModel) (option : obj) (ecModel : GlobalModel)
    (fields : inner_fields) : obj * inner_fields :=
  mergeDefaultAndTheme this option ecModel fields.

(** [mergeOption(option, ecModel)]: the instance after the call. *)
Definition mergeOption (this : ComponentModel) (option : obj)
    (ecModel : GlobalModel) : ComponentModel :=
  let this_option := zrUtil.merge (this_option this) (VObj option) true in
  let layoutMode := layoutMode this in
  with_option this
    (if layoutMode_declared layoutMode
     then layout.mergeLayoutParam this_option option layoutMode
     else this_option).

End component.

(** [getDependencies(componentType)], over the registry it reads. *)
Definition getDependencies (registered : clazz.storage) (componentType : string)
    : list string :=
  let deps :=
    fold_left
      (fun deps clz => (deps ++ default [] (clazz.prototype_dependencies clz))%list)
      (clazz.getClassesByMainType registered componentType) [] in
  let deps := map (fun type => clazz.main (clazz.parseClassType type)) deps in
  if negb (String.eqb componentType "dataset")
     && (zrUtil.indexOf deps "dataset" <=? 0)%Z
  then "dataset" :: deps
  else deps.

(** ** Notions the statements below are phrased with *)

(** The default option that [clz] inherits: what the loops of
    [getDefaultOption] make of the classes above it. *)
Definition inherited_defaultOption (clz : clazz.Constructor) : obj :=
  match clazz.superClass clz with
  | Some super => merge_optList (optList super)
  | None => []
  end.

(** Whether a call of [getDefaultOption] on [this] takes the branch that
    walks the [superClass] chain and merges: the class is extended and
    [inner(this)] holds no [defaultOption] yet. *)
Definition walks_chain (this : ComponentModel) (fields : inner_fields) : bool :=
  clazz.isExtendedClass (ctor this)
  && match fields !! addr this with
     | Some _ => false
     | None => true
     end.

(** An instance of a subclass that overrides [optionUpdated]. *)
Definition with_optionUpdated (this : ComponentModel)
    (hook : obj -> bool -> obj -> obj) : ComponentModel :=
  {| addr := addr this; ctor := ctor this; type := type this; id := id this;
     name := name this; mainType := mainType this; subType := subType this;
     componentIndex := componentIndex this; this_option := this_option this;
     ecModel := ecModel this; dependentModels := dependentModels this;
     uid := uid this; layoutMode := layoutMode this;
     optionUpdated := hook |}.

(** The dependencies that the constructors registered under a main type
    declare, one list after the other, each entry cut down to its main type. *)
Definition declared_dependencies (registered : clazz.storage)
    (componentType : string) : list string :=
  map (fun type => clazz.main (clazz.parseClassType type))
    (concat
       (map (fun clz => default [] (clazz.prototype_dependencies clz))
          (clazz.getClassesByMainType registered componentType))).

(** ** Sample inputs *)

Module samples.

(** A reconciliation that leaves the target as it is. *)
Definition keep_target : layout.Reconcile := fun targetOption _ _ => targetOption.

(** A theme whose fragment for every main type is [{a: 2, b: 2}]. *)
Definition theme_ab : GlobalModel :=
  {| getTheme := {| theme_get := fun _ => VObj [("a", VNum 2); ("b", VNum 2)] |} |}.

(** A directly declared class with [defaultOption = {a: 3, b: 3, c: 3}]. *)
Definition direct_abc : clazz.Constructor :=
  clazz.MkConstructor false
    (Some [("a", VNum 3); ("b", VNum 3); ("c", VNum 3)]) None None.

(** [Base = ComponentModel.extend({defaultOption: {aaa: 1}})],
    [Derived = Base.extend({defaultOption: {bbb: 2}})] and
    [Derived2 = Derived.extend({defaultOption: {aaa: 9}})]. *)
Definition Base : clazz.Constructor :=
  clazz.MkConstructor true (Some [("aaa", VNum 1)]) None (Some ComponentModel_class).
Definition Derived : clazz.Constructor :=
  clazz.MkConstructor true (Some [("bbb", VNum 2)]) None (Some Base).
Definition Derived2 : clazz.Constructor :=
  clazz.MkConstructor true (Some [("aaa", VNum 9)]) None (Some Derived).

(** An instance of [clz] at address [a], otherwise as freshly made. *)
Definition instance (a : positive) (clz : clazz.Constructor) (option : obj)
    (mode : LayoutMode) : ComponentModel :=
  {| addr := a; ctor := clz;
     type := ComponentModel_prototype.type; id := ComponentModel_prototype.id;
     name := ComponentModel_prototype.name;
     mainType := ComponentModel_prototype.mainType;
     subType := ComponentModel_prototype.subType;
     componentIndex := ComponentModel_prototype.componentIndex;
     this_option := option; ecModel := theme_ab; dependentModels := [];
     uid := "ec_cpt_model_0"; layoutMode := mode;
     optionUpdated := ComponentModel_prototype.optionUpdated |}.

(** A hook that records in the option that it ran. *)
Definition mark_checked (newCptOption : obj) (isInit : bool) (option : obj) : obj :=
  set_prop "checked" (VBool isInit) option.

(** Two axis classes that both depend on the grid. *)
Definition axis_classes : clazz.storage :=
  [ ({| clazz.main := "xAxis"; clazz.sub := "value" |},
     clazz.MkConstructor true None (Some ["grid"]) None);
    ({| clazz.main := "xAxis"; clazz.sub := "category" |},
     clazz.MkConstructor true None (Some ["grid"]) None) ].

(** A dataset class that lists the dataset among its own dependencies. *)
Definition dataset_on_dataset : clazz.storage :=
  [ ({| clazz.main := "dataset"; clazz.sub := "" |},
     clazz.MkConstructor true None (Some ["dataset"]) None) ].

End samples.

(** ** Notions the further properties are phrased with *)

(** The keys of a plain object are distinct, in it and in every plain object
    reached from it through plain objects: what a JavaScript object is. *)
Fixpoint distinct_keys (v : value) : bool :=
  match v with
  | VObj fields =>
      bool_decide (NoDup (keys fields))
      && (fix all (l : list (string * value)) : bool :=
            match l with
            | [] => true
            | (_, x) :: rest => distinct_keys x && all rest
            end) fields
  | _ => true
  end.

(** The same of a list of properties. *)
Definition distinct_fields (l : obj) : bool :=
  bool_decide (NoDup (keys l)) && forallb (fun p => distinct_keys (snd p)) l.

(** The target's property [targetProp] already is what [merge] would make of
    it with the source's [sourceProp]: two plain objects are compared
    property by property ([recur]), otherwise the target's is the source's
    when overwriting and anything when not. *)
Definition settled_prop (overwrite : bool) (sourceProp : value)
    (recur : obj -> Prop) (targetProp : option value) : Prop :=
  match targetProp with
  | None => False
  | Some tv =>
      match sourceProp, tv with
      | VObj _, VObj tf => recur tf
      | _, _ => if overwrite then tv = sourceProp else True
      end
  end.

(** Merging the plain object [source] into [target] has nothing left to do. *)
Fixpoint settled (overwrite : bool) (source : value) (target : obj)
    {struct source} : Prop :=
  match source with
  | VObj fields =>
      (fix each (l : list (string * value)) : Prop :=
         match l with
         | [] => True
         | (key, sourceProp) :: rest =>
             settled_prop overwrite sourceProp (settled overwrite sourceProp)
               (get_prop key target)
             ∧ each rest
         end) fields
  | _ => True
  end.

(** The same of the properties [l] of a source. *)
Definition settled_fields (overwrite : bool) (l : obj) (target : obj) : Prop :=
  Forall
    (fun p =>
       settled_prop overwrite (snd p) (settled overwrite (snd p))
         (get_prop (fst p) target))
    l.

(** ** Sample inputs with nested options *)

Module nested_samples.

(** The user option [{a: 1, style: {color: "red"}}]. *)
Definition user_style : obj :=
  [("a", VNum 1); ("style", VObj [("color", VStr "red")])].

(** A theme whose fragment for every main type is
    [{a: 2, style: {color: "blue", width: 2}}]. *)
Definition theme_style : GlobalModel :=
  {| getTheme :=
       {| theme_get := fun _ =>
            VObj [("a", VNum 2);
                  ("style", VObj [("color", VStr "blue"); ("width", VNum 2)])] |} |}.

(** A directly declared class with
    [defaultOption = {style: {width: 1, opacity: 1}, c: 3}]. *)
Definition direct_style : clazz.Constructor :=
  clazz.MkConstructor false
    (Some [("style", VObj [("width", VNum 1); ("opacity", VNum 1)]);
           ("c", VNum 3)])
    None None.

(** An instance of [direct_style] without layout mode. *)
Definition styled (option : obj) : ComponentModel :=
  samples.instance 1 direct_style option LayoutMode_undefined.

(** A series class whose first dependency is a dataset. *)
Definition series_on_dataset : clazz.storage :=
  [ ({| clazz.main := "series"; clazz.sub := "line" |},
     clazz.MkConstructor true None (Some ["dataset"; "grid"]) None) ].

End nested_samples.

(** ** Dependencies over the entries as they come *)

(** What a call gives: a value, or the [TypeError] of reading a property of
    [undefined]. *)
Inductive outcome (A : Type) : Type :=
| Returns (result : A)
| Throws_TypeError.
Arguments Returns {A} result.
Arguments Throws_TypeError {A}.

(** [getDependencies(componentType)] over the array that
    [getClassesByMainType] hands it, taken as it comes: an entry may be
    [undefined] ([None]), and [clz.prototype] on such an entry throws, the
    callback reading it without a test. *)
Definition getDependencies_entries (classes : list (option clazz.Constructor))
    (componentType : string) : outcome (list string) :=
  let deps :=
    fold_left
      (fun deps clz =>
         match deps, clz with
         | Returns deps, Some clz =>
             Returns (deps ++ default [] (clazz.prototype_dependencies clz))%list
         | Returns _, None => Throws_TypeError
         | Throws_TypeError, _ => Throws_TypeError
         end)
      classes (Returns []) in
  match deps with
  | Throws_TypeError => Throws_TypeError
  | Returns deps =>
      let deps := map (fun type => clazz.main (clazz.parseClassType type)) deps in
      Returns
        (if negb (String.eqb componentType "dataset")
            && (zrUtil.indexOf deps "dataset" <=? 0)%Z
         then "dataset" :: deps
         else deps)
  end.

(** ** Construction by the document resolver *)

(** The identity that the document resolver computes for a component. *)
Record ComponentMetadata : Type := {
  meta_mainType : string;
  meta_subType : string;
  meta_componentIndex : Z;
  meta_id : string;
  meta_name : string
}.

Definition with_identity (this : ComponentModel) (metadata : ComponentMetadata)
    : ComponentModel :=
  {| addr := addr this; ctor := ctor this; type := type this;
     id := meta_id metadata; name := meta_name metadata;
     mainType := meta_mainType metadata; subType := meta_subType metadata;
     componentIndex := meta_componentIndex metadata;
     this_option := this_option this; ecModel := ecModel this;
     dependentModels := dependentModels this; uid := uid this;
     layoutMode := layoutMode this; optionUpdated := optionUpdated this |}.

Section construction.

Context `{!layout.Reconcile}.

(** Modelled from the spec: [construct(rawOption, parentOptionSource,
    globalModel)], the steps by which the document resolver (model/Global,
    not among the sources) builds a component on the new instance [this]:
    run [mergeDefaultAndTheme], through [init], to produce the working
    option; assign the identity fields from the metadata; invoke
    [optionUpdated(newOption, isInit = true)]. *)
Definition construct (this : ComponentModel) (rawOption : obj)
    (globalModel : GlobalModel) (metadata : ComponentMetadata)
    (fields : inner_fields) : ComponentModel * inner_fields :=
  let '(newOption, fields) := init this rawOption globalModel fields in
  let this := with_option this newOption in
  let this := with_identity this metadata in
  let this :=
    with_option this (optionUpdated this newOption true (this_option this)) in
  (this, fields).

End construction.

(** ** Instances of subclasses *)

(** What the prototype of a subclass sets itself among the fields that
    [protoInitialize] sets on [ComponentModel.prototype]; [None] for a field
    it leaves to the prototype above it. *)
Record PrototypeFields : Type := {
  own_type : option string;
  own_id : option string;
  own_name : option string;
  own_mainType : option string;
  own_subType : option string;
  own_componentIndex : option Z
}.

(** A field that the instance does not have itself, read through the
    prototypes of its classes, the nearest first, down to
    [ComponentModel.prototype], which holds [base]. *)
Fixpoint inherited {A : Type} (own : PrototypeFields -> option A)
    (chain : list PrototypeFields) (base : A) : A :=
  match chain with
  | [] => base
  | prototype :: rest =>
      match own prototype with
      | Some v => v
      | None => inherited own rest base
      end
  end.

(** [new Clz(option, parentModel, ecModel)] for a class [clz] below
    [ComponentModel] whose prototypes are [chain]: the constructor of
    [ComponentModel] runs as in [new_ComponentModel] and assigns none of the
    fields of [protoInitialize], which are read through the prototypes;
    [mode] and [hook] are the [layoutMode] and the [optionUpdated] that the
    class gives its instances. *)
Definition new_instance (chain : list PrototypeFields) (clz : clazz.Constructor)
    (mode : LayoutMode) (hook : obj -> bool -> obj -> obj)
    (a : positive) (fresh_uid : string) (option : obj) (ecModel : GlobalModel)
    : ComponentModel :=
  {| addr := a;
     ctor := clz;
     type := inherited own_type chain ComponentModel_prototype.type;
     id := inherited own_id chain ComponentModel_prototype.id;
     name := inherited own_name chain ComponentModel_prototype.name;
     mainType := inherited own_mainType chain ComponentModel_prototype.mainType;
     subType := inherited own_subType chain ComponentModel_prototype.subType;
     componentIndex :=
       inherited own_componentIndex chain ComponentModel_prototype.componentIndex;
     this_option := option;
     ecModel := ecModel;
     dependentModels := [];
     uid := fresh_uid;
     layoutMode := mode;
     optionUpdated := hook |}.

(** ** The classes above a class *)

(** [c] is [clz] or a class reached from it by following [superClass]. *)
Inductive on_chain : clazz.Constructor -> clazz.Constructor -> Prop :=
| on_chain_here clz : on_chain clz clz
| on_chain_super clz super c :
    clazz.superClass clz = Some super → on_chain super c → on_chain clz c.

(** ** Sample subclasses *)

Module subclass_samples.

(** The prototype of [Grid = ComponentModel.extend({type: 'grid'})]. *)
Definition grid_prototype : PrototypeFields :=
  {| own_type := Some "grid"; own_id := None; own_name := None;
     own_mainType := None; own_subType := None; own_componentIndex := None |}.

(** The class [Grid] itself. *)
Definition Grid : clazz.Constructor :=
  clazz.MkConstructor true None None (Some ComponentModel_class).

(** The identity of the first grid of a document. *)
Definition first_grid : ComponentMetadata :=
  {| meta_mainType := "grid"; meta_subType := ""; meta_componentIndex := 0;
     meta_id := "grid0"; meta_name := "" |}.

End subclass_samples.

(** ** Properties of the merge primitive *)

Section merge_facts.

Import zrUtil.

Lemma get_prop_set_prop_eq key v o : get_prop key (set_prop key v o) = Some v.
Proof.
  induction o as [|[k w] rest IH]; simpl.
  - by rewrite decide_True.
  - destruct (decide (k = key)) as [->|Hne]; simpl.
    + by rewrite decide_True.
    + by rewrite decide_False.
Qed.

Lemma get_prop_set_prop_ne key key' v o :
  key ≠ key' → get_prop key' (set_prop key v o) = get_prop key' o.
Proof.
  intros Hne. induction o as [|[k w] rest IH]; simpl.
  - by rewrite decide_False.
  - destruct (decide (k = key)) as [->|Hk]; simpl.
    + by rewrite !decide_False.
    + destruct (decide (k = key')); [done | apply IH].
Qed.

Lemma get_prop_None key o : key ∉ keys o → get_prop key o = None.
Proof.
  induction o as [|[k w] rest IH]; simpl; [done|].
  intros Hnot. rewrite not_elem_of_cons in Hnot. destruct Hnot as [Hk Hrest].
  rewrite decide_False; [by apply IH | congruence].
Qed.

Lemma merge_obj target fields overwrite :
  merge target (VObj fields) overwrite = merge_fields overwrite fields target.
Proof. revert target. induction fields as [|[k sv] rest IH]; intros; simpl; [done|]. apply IH. Qed.

Lemma merge_enumerable target source overwrite :
  merge target source overwrite = merge_fields overwrite (enumerable source) target.
Proof.
  destruct source; try reflexivity.
  - simpl. generalize 0%nat. revert target.
    induction items as [|v rest IH]; intros; simpl; [done|]. apply IH.
  - apply merge_obj.
Qed.

(** One step of the loop, read back under its own key and under another. *)
Lemma get_prop_merge_prop_eq overwrite key sv target :
  get_prop key
    (merge_prop overwrite key sv (fun tp => merge tp sv overwrite) target)
  = merged_prop overwrite (get_prop key target) (Some sv).
Proof.
  unfold merge_prop, merged_prop, has_prop, clone.
  destruct (get_prop key target) as [tv|] eqn:Ht.
  - destruct sv; destruct overwrite; simpl;
      rewrite ?get_prop_set_prop_eq, ?Ht; try done;
      destruct tv; simpl; rewrite ?get_prop_set_prop_eq, ?Ht; done.
  - destruct sv; rewrite orb_true_r; simpl; by rewrite get_prop_set_prop_eq.
Qed.

Lemma get_prop_merge_prop_ne overwrite key key' sv recur target :
  key ≠ key' →
  get_prop key' (merge_prop overwrite key sv recur target) = get_prop key' target.
Proof.
  intros Hne. unfold merge_prop.
  destruct sv, (get_prop key target) as [[]|];
    try (destruct (overwrite || negb (has_prop key target)));
    rewrite ?get_prop_set_prop_ne; done.
Qed.

(** The loop over a source whose keys are distinct, key by key. *)
Lemma get_prop_merge_fields overwrite l target key :
  NoDup (keys l) →
  get_prop key (merge_fields overwrite l target)
  = merged_prop overwrite (get_prop key target) (get_prop key l).
Proof.
  revert target. induction l as [|[k sv] rest IH]; intros target Hnd; simpl; [done|].
  simpl in Hnd. apply NoDup_cons in Hnd as [Hk Hnd].
  rewrite IH by done.
  destruct (decide (k = key)) as [->|Hne].
  - rewrite get_prop_merge_prop_eq, (get_prop_None key rest) by done. done.
  - by rewrite get_prop_merge_prop_ne.
Qed.

Lemma get_prop_merge target source overwrite key :
  NoDup (keys (enumerable source)) →
  get_prop key (merge target source overwrite)
  = merged_prop overwrite (get_prop key target) (get_prop key (enumerable source)).
Proof. intros Hnd. rewrite merge_enumerable. by apply get_prop_merge_fields. Qed.

End merge_facts.

(** ** Layout parameters *)

Section layout_facts.

Import layout.

Lemma get_prop_copy_names names source target key :
  get_prop key
    (fold_left
       (fun target name =>
          match get_prop name source with
          | Some v => set_prop name v target
          | None => target
          end) names target)
  = if bool_decide (key ∈ names)
    then match get_prop key source with
         | Some v => Some v
         | None => get_prop key target
         end
    else get_prop key target.
Proof.
  revert target. induction names as [|n names IH]; intros target; cbn [fold_left].
  - rewrite bool_decide_eq_false_2; [done | apply not_elem_of_nil].
  - rewrite IH. destruct (decide (n = key)) as [->|Hne].
    + rewrite (bool_decide_eq_true_2 (key ∈ key :: names)) by apply list_elem_of_here.
      destruct (get_prop key source) as [v|] eqn:Hs.
      * destruct (bool_decide (key ∈ names)); [done | apply get_prop_set_prop_eq].
      * by destruct (bool_decide (key ∈ names)).
    + assert (Hsame : get_prop key
                match get_prop n source with
                | Some v => set_prop n v target
                | None => target
                end = get_prop key target).
      { destruct (get_prop n source); [by apply get_prop_set_prop_ne | done]. }
      rewrite Hsame.
      destruct (decide (key ∈ names)) as [Hin|Hnin].
      * rewrite !bool_decide_eq_true_2; [done | by apply list_elem_of_further | done].
      * rewrite !bool_decide_eq_false_2; [done | | done].
        rewrite not_elem_of_cons. split; [congruence | done].
Qed.

(** The snapshot holds the six box fields of the option it is taken from,
    and nothing else. *)
Lemma get_prop_getLayoutParams source key :
  get_prop key (getLayoutParams source)
  = if bool_decide (key ∈ LOCATION_PARAMS) then get_prop key source else None.
Proof.
  unfold getLayoutParams. rewrite get_prop_copy_names. simpl.
  destruct (bool_decide (key ∈ LOCATION_PARAMS)); [|done].
  by destruct (get_prop key source).
Qed.

End layout_facts.

(** ** Building and patching the option *)

Section merged_prop_facts.

Import zrUtil.

Lemma merged_prop_absent overwrite s : merged_prop overwrite None s = s.
Proof. destruct s as [[]|]; reflexivity. Qed.

Lemma merged_prop_kept v s :
  is_plain_object v = false → merged_prop false (Some v) s = Some v.
Proof. intros Hv. destruct s as [sv|]; [|done]. destruct sv, v; done. Qed.

Lemma merged_prop_replaced t v :
  is_plain_object v = false → merged_prop true t (Some v) = Some v.
Proof. intros Hv. destruct t as [tv|]; destruct v; try done; destruct tv; done. Qed.

End merged_prop_facts.

Section component_facts.

Context `{!layout.Reconcile}.
Import zrUtil.

Lemma mergeDefaultAndTheme_fst this option ecModel fields :
  fst (mergeDefaultAndTheme this option ecModel fields)
  = let merged :=
      merge (merge option (theme_get (getTheme ecModel) (mainType this)) false)
        (of_optional (fst (getDefaultOption this fields))) false in
    if layoutMode_declared (layoutMode this)
    then layout.mergeLayoutParam merged (layout.getLayoutParams option) (layoutMode this)
    else merged.
Proof.
  unfold mergeDefaultAndTheme. destruct (getDefaultOption this fields) as [d fields'].
  simpl. by destruct (layoutMode_declared (layoutMode this)).
Qed.

(** C1. [mergeDefaultAndTheme] merges the theme's fragment for the
    instance's main type and then the default option into the user option
    without overwriting: key by key the user's property stands, else the
    theme's, else the default's, nested plain objects being merged the same
    way; the result of this merge is what layout reconciliation, if the
    component declares a layout mode, is then applied to.  For the option
    [{a: 1}], the theme [{a: 2, b: 2}] and the default option
    [{a: 3, b: 3, c: 3}] of a component without layout mode the result is
    [{a: 1, b: 2, c: 3}]. *)
Theorem mergeDefaultAndTheme_precedence this option ecModel fields :
  let theme := enumerable (theme_get (getTheme ecModel) (mainType this)) in
  let defaultOption :=
    enumerable (of_optional (fst (getDefaultOption this fields))) in
  NoDup (keys theme) → NoDup (keys defaultOption) →
  (∃ merged,
      fst (mergeDefaultAndTheme this option ecModel fields)
      = (if layoutMode_declared (layoutMode this)
         then layout.mergeLayoutParam merged (layout.getLayoutParams option)
                (layoutMode this)
         else merged)
      ∧ (∀ key, get_prop key merged
                = merged_prop false
                    (merged_prop false (get_prop key option) (get_prop key theme))
                    (get_prop key defaultOption))
      ∧ (∀ key v, get_prop key option = Some v → is_plain_object v = false →
                  get_prop key merged = Some v)
      ∧ (∀ key v, get_prop key option = None → get_prop key theme = Some v →
                  is_plain_object v = false → get_prop key merged = Some v)
      ∧ (∀ key, get_prop key option = None → get_prop key theme = None →
                get_prop key merged = get_prop key defaultOption))
  ∧ (layoutMode_declared (layoutMode this) = false →
     option = [("a", VNum 1)] →
     theme = [("a", VNum 2); ("b", VNum 2)] →
     defaultOption = [("a", VNum 3); ("b", VNum 3); ("c", VNum 3)] →
     fst (mergeDefaultAndTheme this option ecModel fields)
     = [("a", VNum 1); ("b", VNum 2); ("c", VNum 3)]).
Proof.
  intros theme defaultOption Htheme Hdefault.
  assert (Hlaw : ∀ key,
    get_prop key
      (merge (merge option (theme_get (getTheme ecModel) (mainType this)) false)
         (of_optional (fst (getDefaultOption this fields))) false)
    = merged_prop false
        (merged_prop false (get_prop key option) (get_prop key theme))
        (get_prop key defaultOption)).
  { intros key. by rewrite !get_prop_merge. }
  split.
  - eexists. split; [apply mergeDefaultAndTheme_fst|]. cbv zeta.
    split; [exact Hlaw|]. repeat split.
    + intros key v Ho Hv. by rewrite Hlaw, Ho, !merged_prop_kept.
    + intros key v Ho Ht Hv. by rewrite Hlaw, Ho, Ht, merged_prop_absent, merged_prop_kept.
    + intros key Ho Ht. by rewrite Hlaw, Ho, Ht, !merged_prop_absent.
  - intros Hmode Ho Ht Hd. rewrite mergeDefaultAndTheme_fst, Hmode. cbv zeta.
    rewrite !merge_enumerable. fold theme defaultOption.
    rewrite Ho, Ht, Hd. reflexivity.
Qed.

(** C2. [mergeOption] deep-merges the incoming option into the instance's
    current option with the incoming fields winning: key by key the
    incoming property stands where there is one (two plain objects being
    merged the same way) and the current one is kept otherwise; layout
    reconciliation, if the component declares a layout mode, is then
    applied to the result with the incoming option; nothing else of the
    instance changes.  With the current option [{a: 1, b: 2}] and no layout
    mode, [mergeOption({b: 9, c: 9})] leaves [{a: 1, b: 9, c: 9}]. *)
Theorem mergeOption_patch this option ecModel :
  NoDup (keys option) →
  (∃ merged,
      mergeOption this option ecModel
      = with_option this
          (if layoutMode_declared (layoutMode this)
           then layout.mergeLayoutParam merged option (layoutMode this)
           else merged)
      ∧ (∀ key, get_prop key merged
                = merged_prop true (get_prop key (this_option this))
                    (get_prop key option))
      ∧ (∀ key v, get_prop key option = Some v → is_plain_object v = false →
                  get_prop key merged = Some v)
      ∧ (∀ key, get_prop key option = None →
                get_prop key merged = get_prop key (this_option this)))
  ∧ (layoutMode_declared (layoutMode this) = false →
     this_option this = [("a", VNum 1); ("b", VNum 2)] →
     option = [("b", VNum 9); ("c", VNum 9)] →
     this_option (mergeOption this option ecModel)
     = [("a", VNum 1); ("b", VNum 9); ("c", VNum 9)]).
Proof.
  intros Hnd.
  assert (Hlaw : ∀ key,
    get_prop key (merge (this_option this) (VObj option) true)
    = merged_prop true (get_prop key (this_option this)) (get_prop key option)).
  { intros key. by rewrite get_prop_merge. }
  split.
  - exists (merge (this_option this) (VObj option) true).
    split; [reflexivity|]. split; [exact Hlaw|]. split.
    + intros key v Ho Hv. by rewrite Hlaw, Ho, merged_prop_replaced.
    + intros key Ho. by rewrite Hlaw, Ho.
  - intros Hmode Hcur Ho. unfold mergeOption. rewrite Hmode, Hcur, Ho. reflexivity.
Qed.

End component_facts.

(** C9. When the component declares a layout mode, the result of
    [mergeDefaultAndTheme] is the reconciliation, by the external
    [mergeLayoutParam], of the theme-and-default merge with a snapshot that
    holds the fields left, right, top, bottom, width and height of the user
    option as it was passed in, before any merging, and nothing else; when
    no layout mode is declared the result is the merge itself, whatever the
    reconciliation function is. *)
Theorem mergeDefaultAndTheme_layoutMode
    (reconcile reconcile' : layout.Reconcile) this option ecModel fields :
  let merged :=
    zrUtil.merge
      (zrUtil.merge option (theme_get (getTheme ecModel) (mainType this)) false)
      (of_optional (fst (getDefaultOption this fields))) false in
  (layoutMode_declared (layoutMode this) = true →
     fst (@mergeDefaultAndTheme reconcile this option ecModel fields)
     = reconcile merged (layout.getLayoutParams option) (layoutMode this)
     ∧ ∀ key, get_prop key (layout.getLayoutParams option)
              = if bool_decide
                     (key ∈ ["left"; "right"; "top"; "bottom"; "width"; "height"])
                then get_prop key option
                else None)
  ∧ (layoutMode_declared (layoutMode this) = false →
     fst (@mergeDefaultAndTheme reconcile this option ecModel fields) = merged
     ∧ @mergeDefaultAndTheme reconcile this option ecModel fields
       = @mergeDefaultAndTheme reconcile' this option ecModel fields).
Proof.
  intros merged. split; intros Hmode.
  - split.
    + rewrite mergeDefaultAndTheme_fst, Hmode. reflexivity.
    + intros key. apply get_prop_getLayoutParams.
  - split.
    + rewrite mergeDefaultAndTheme_fst, Hmode. reflexivity.
    + unfold mergeDefaultAndTheme. rewrite Hmode. reflexivity.
Qed.

(** C8.  Constructing a component runs [mergeDefaultAndTheme], through
    [init], to produce the working option and then invokes the instance's
    [optionUpdated] on it with [isInit = true]: the working option of the
    constructed instance is what the hook makes of the merged option, the
    private fields are those [mergeDefaultAndTheme] leaves, and the identity
    fields are the metadata.  The [optionUpdated] of [ComponentModel], which
    a fresh [ComponentModel] has, does nothing: with it the working option
    is the merged option itself, key by key the user's property, else the
    theme's, else the default's, when the component has no layout mode. *)
Theorem construct_merges_then_updates
    (reconcile : layout.Reconcile) this rawOption globalModel metadata fields :
  let merged :=
    fst (@mergeDefaultAndTheme reconcile this rawOption globalModel fields) in
  let built :=
    fst (@construct reconcile this rawOption globalModel metadata fields) in
  this_option built = optionUpdated this merged true merged
  ∧ snd (@construct reconcile this rawOption globalModel metadata fields)
    = snd (@mergeDefaultAndTheme reconcile this rawOption globalModel fields)
  ∧ (mainType built, subType built, componentIndex built, id built, name built)
    = (meta_mainType metadata, meta_subType metadata,
       meta_componentIndex metadata, meta_id metadata, meta_name metadata)
  ∧ (∀ newCptOption isInit current,
       ComponentModel_prototype.optionUpdated newCptOption isInit current = current)
  ∧ (∀ a fresh_uid,
       optionUpdated (new_ComponentModel a fresh_uid rawOption globalModel)
       = ComponentModel_prototype.optionUpdated)
  ∧ (optionUpdated this = ComponentModel_prototype.optionUpdated →
     this_option built = merged
     ∧ (layoutMode_declared (layoutMode this) = false →
        NoDup (keys (zrUtil.enumerable
                       (theme_get (getTheme globalModel) (mainType this)))) →
        NoDup (keys (zrUtil.enumerable
                       (of_optional (fst (getDefaultOption this fields))))) →
        ∀ key,
          get_prop key (this_option built)
          = zrUtil.merged_prop false
              (zrUtil.merged_prop false (get_prop key rawOption)
                 (get_prop key
                    (zrUtil.enumerable
                       (theme_get (getTheme globalModel) (mainType this)))))
              (get_prop key
                 (zrUtil.enumerable
                    (of_optional (fst (getDefaultOption this fields))))))).
Proof.
  intros merged built.
  assert (Hbuilt : this_option built = optionUpdated this merged true merged).
  { unfold built, merged, construct, init.
    by destruct (mergeDefaultAndTheme this rawOption globalModel fields). }
  split; [exact Hbuilt|]. split; [|split; [|split; [|split]]].
  - unfold construct, init.
    by destruct (mergeDefaultAndTheme this rawOption globalModel fields).
  - unfold built, construct, init.
    by destruct (mergeDefaultAndTheme this rawOption globalModel fields).
  - done.
  - done.
  - intros Hhook. rewrite Hbuilt, Hhook. split; [done|].
    intros Hmode Htheme Hdefault key.
    unfold ComponentModel_prototype.optionUpdated, merged.
    rewrite mergeDefaultAndTheme_fst, Hmode. cbv zeta.
    by rewrite !get_prop_merge.
Qed.

(** ** The default option of a class *)

Section getDefaultOption_facts.

Import zrUtil clazz.

Lemma merge_optList_unfold clz :
  merge_optList (optList clz)
  = match prototype_defaultOption clz with
    | Some declared => merge (inherited_defaultOption clz) (VObj declared) true
    | None => inherited_defaultOption clz
    end.
Proof.
  destruct clz as [ext [declared|] deps [super|]]; reflexivity.
Qed.

Lemma getDefaultOption_walks this fields :
  walks_chain this fields = true →
  getDefaultOption this fields
  = (Some (merge_optList (optList (ctor this))),
     <[addr this := merge_optList (optList (ctor this))]> fields).
Proof.
  unfold walks_chain, getDefaultOption. intros [Hext Hnone]%andb_true_iff.
  rewrite Hext. simpl. by destruct (fields !! addr this).
Qed.

Lemma getDefaultOption_no_walk this fields :
  walks_chain this fields = false → snd (getDefaultOption this fields) = fields.
Proof.
  unfold walks_chain, getDefaultOption.
  destruct (isExtendedClass (ctor this)); simpl; [|done].
  by destruct (fields !! addr this).
Qed.

End getDefaultOption_facts.

(** C5. On an instance of a class produced by [extend], [getDefaultOption]
    (on a first call, and on every later one since what is kept for the
    instance is what a first call computed) returns the default options
    declared along the [superClass] chain merged from the base to the most
    derived class: at each class the declared option is merged over what is inherited, so that
    a declared field stands and an undeclared one is inherited (base
    [{aaa: 1}] and derived [{bbb: 2}] give [{aaa: 1, bbb: 2}]; a further
    class declaring [aaa: 9] gives [{aaa: 9, bbb: 2}]).  On an instance of a
    directly declared class it returns the class's own [defaultOption] as it
    is, with no walk of the chain and no change of the private fields. *)
Theorem getDefaultOption_inheritance :
  (∀ this fields,
     clazz.isExtendedClass (ctor this) = false →
     getDefaultOption this fields
     = (clazz.prototype_defaultOption (ctor this), fields))
  ∧ (∀ this fields,
       clazz.isExtendedClass (ctor this) = true →
       (∀ kept, fields !! addr this = Some kept →
                kept = merge_optList (optList (ctor this))) →
       fst (getDefaultOption this fields)
       = Some (merge_optList (optList (ctor this)))
       ∧ ∀ kept, snd (getDefaultOption this fields) !! addr this = Some kept →
                 kept = merge_optList (optList (ctor this)))
  ∧ (∀ clz,
       merge_optList (optList clz)
       = match clazz.prototype_defaultOption clz with
         | Some declared =>
             zrUtil.merge (inherited_defaultOption clz) (VObj declared) true
         | None => inherited_defaultOption clz
         end)
  ∧ (∀ clz declared,
       clazz.prototype_defaultOption clz = Some declared → NoDup (keys declared) →
       (∀ key, get_prop key (merge_optList (optList clz))
               = zrUtil.merged_prop true
                   (get_prop key (inherited_defaultOption clz))
                   (get_prop key declared))
       ∧ (∀ key v, get_prop key declared = Some v → is_plain_object v = false →
                   get_prop key (merge_optList (optList clz)) = Some v)
       ∧ (∀ key, get_prop key declared = None →
                 get_prop key (merge_optList (optList clz))
                 = get_prop key (inherited_defaultOption clz)))
  ∧ fst (getDefaultOption
           (samples.instance 1 samples.Derived [] LayoutMode_undefined) ∅)
    = Some [("aaa", VNum 1); ("bbb", VNum 2)]
  ∧ fst (getDefaultOption
           (samples.instance 1 samples.Derived2 [] LayoutMode_undefined) ∅)
    = Some [("aaa", VNum 9); ("bbb", VNum 2)].
Proof.
  split; [|split; [|split; [|split; [|split]]]].
  - intros this fields Hext. unfold getDefaultOption. by rewrite Hext.
  - intros this fields Hext Hkept. unfold getDefaultOption. rewrite Hext. simpl.
    destruct (fields !! addr this) as [kept|] eqn:Hf; simpl.
    + rewrite (Hkept kept eq_refl). split; [done|]. intros kept' Hk.
      rewrite Hf in Hk. injection Hk as <-. by apply Hkept.
    + split; [done|]. intros kept Hk.
      rewrite lookup_insert_eq in Hk. by injection Hk as <-.
  - apply merge_optList_unfold.
  - intros clz declared Hdecl Hnd.
    assert (Hlaw : ∀ key, get_prop key (merge_optList (optList clz))
               = zrUtil.merged_prop true
                   (get_prop key (inherited_defaultOption clz))
                   (get_prop key declared)).
    { intros key. rewrite merge_optList_unfold, Hdecl. by rewrite get_prop_merge. }
    split; [exact Hlaw|]. split.
    + intros key v Hd Hv. by rewrite Hlaw, Hd, merged_prop_replaced.
    + intros key Hd. by rewrite Hlaw, Hd.
  - reflexivity.
  - reflexivity.
Qed.

(** C6, as the code has it.  The merged default option is computed on the
    first call on an instance and kept in the private fields of that
    instance (a call that does not walk the chain writes nothing): a later
    call on the same instance returns it without walking the chain again
    and leaves the fields as they are, while the fields of
    every other instance are untouched, so that another instance of the same
    extended class whose own fields are still empty walks the chain again,
    to an equal result. *)
Theorem getDefaultOption_cached_per_instance this fields :
  clazz.isExtendedClass (ctor this) = true →
  let after := snd (getDefaultOption this fields) in
  (walks_chain this fields = true →
     getDefaultOption this fields
     = (Some (merge_optList (optList (ctor this))),
        <[addr this := merge_optList (optList (ctor this))]> fields))
  ∧ (walks_chain this fields = false → after = fields)
  ∧ walks_chain this after = false
  ∧ getDefaultOption this after = (fst (getDefaultOption this fields), after)
  ∧ (∀ other, addr other ≠ addr this →
       after !! addr other = fields !! addr other
       ∧ walks_chain other after = walks_chain other fields)
  ∧ (∀ other, addr other ≠ addr this → ctor other = ctor this →
       fields !! addr this = None → fields !! addr other = None →
       walks_chain other after = true
       ∧ fst (getDefaultOption other after) = fst (getDefaultOption this fields)).
Proof.
  intros Hext after.
  assert (Hafter : after !! addr this
                   = Some (default (merge_optList (optList (ctor this)))
                             (fields !! addr this))).
  { unfold after, getDefaultOption. rewrite Hext. simpl.
    destruct (fields !! addr this) as [d|] eqn:Hf; simpl; [done|].
    apply lookup_insert_eq. }
  assert (Hother : ∀ other, addr other ≠ addr this →
                   after !! addr other = fields !! addr other).
  { intros other Hne. unfold after, getDefaultOption. rewrite Hext. simpl.
    destruct (fields !! addr this); simpl; [done|].
    by apply lookup_insert_ne. }
  split; [apply getDefaultOption_walks|].
  split; [apply getDefaultOption_no_walk|]. split; [|split; [|split]].
  - unfold walks_chain. by rewrite Hafter, andb_false_r.
  - unfold getDefaultOption at 1. rewrite Hext, Hafter. simpl.
    unfold after, getDefaultOption. rewrite Hext. simpl.
    by destruct (fields !! addr this).
  - intros other Hne. split; [by apply Hother|].
    unfold walks_chain. by rewrite Hother.
  - intros other Hne Hctor Hthis Hnone.
    assert (Hw : walks_chain other after = true).
    { unfold walks_chain. by rewrite Hother, Hnone, Hctor, Hext. }
    split; [done|].
    rewrite (getDefaultOption_walks other after Hw), Hctor.
    rewrite getDefaultOption_walks; [done|].
    unfold walks_chain. by rewrite Hext, Hthis.
Qed.

Lemma inherited_base {A} (own : PrototypeFields → option A) chain (base : A) :
  Forall (fun prototype => own prototype = None) chain →
  inherited own chain base = base.
Proof.
  induction chain as [|p rest IH]; simpl; [done|].
  intros [Hp Hrest]%Forall_cons. rewrite Hp. by apply IH.
Qed.

Lemma inherited_nearest {A} (own : PrototypeFields → option A)
    before p after (base v : A) :
  Forall (fun prototype => own prototype = None) before →
  own p = Some v →
  inherited own (before ++ p :: after) base = v.
Proof.
  intros Hbefore Hp. induction before as [|q before IH]; simpl.
  - by rewrite Hp.
  - apply Forall_cons in Hbefore as [Hq Hbefore]. rewrite Hq. by apply IH.
Qed.

(** C10, as the code has it.  A freshly created instance of
    [ComponentModel] or of a subclass has an empty dependentModels map and
    reads type, id, name, mainType, subType and componentIndex through its
    prototypes: a field that no prototype of a subclass sets is the one of
    [ComponentModel.prototype] (type "component", the empty string as id,
    name, mainType and subType, componentIndex 0), as all are for an
    instance of [ComponentModel] itself, and a field that one sets has the
    value set by the nearest such prototype; so each of them is defined. *)
Theorem new_instance_identity chain clz mode hook a fresh_uid option ecModel :
  let this := new_instance chain clz mode hook a fresh_uid option ecModel in
  dependentModels this = []
  ∧ new_ComponentModel a fresh_uid option ecModel
    = new_instance [] ComponentModel_class LayoutMode_undefined
        ComponentModel_prototype.optionUpdated a fresh_uid option ecModel
  ∧ (Forall (fun p => own_type p = None) chain → type this = "component")
  ∧ (Forall (fun p => own_id p = None) chain → id this = "")
  ∧ (Forall (fun p => own_name p = None) chain → name this = "")
  ∧ (Forall (fun p => own_mainType p = None) chain → mainType this = "")
  ∧ (Forall (fun p => own_subType p = None) chain → subType this = "")
  ∧ (Forall (fun p => own_componentIndex p = None) chain →
     componentIndex this = 0%Z)
  ∧ (∀ before p after v,
       chain = (before ++ p :: after)%list →
       (Forall (fun q => own_type q = None) before → own_type p = Some v →
        type this = v)
       ∧ (Forall (fun q => own_id q = None) before → own_id p = Some v →
          id this = v)
       ∧ (Forall (fun q => own_name q = None) before → own_name p = Some v →
          name this = v)
       ∧ (Forall (fun q => own_mainType q = None) before →
          own_mainType p = Some v → mainType this = v)
       ∧ (Forall (fun q => own_subType q = None) before →
          own_subType p = Some v → subType this = v))
  ∧ (∀ before p after n,
       chain = (before ++ p :: after)%list →
       Forall (fun q => own_componentIndex q = None) before →
       own_componentIndex p = Some n → componentIndex this = n).
Proof.
  intros this. unfold this, new_instance. cbn.
  split; [done|]. split; [done|].
  repeat (split; [by apply inherited_base|]).
  split.
  - intros before p after v ->.
    repeat split; intros Hbefore Hp; by apply inherited_nearest.
  - intros before p after n -> Hbefore Hp. by apply inherited_nearest.
Qed.

(** ** Dependencies *)

Section getDependencies_facts.

Import zrUtil clazz.

Lemma fold_left_concat {A} (f : A → list string) (l : list A) (acc : list string) :
  fold_left (fun deps x => (deps ++ f x)%list) l acc
  = (acc ++ concat (map f l))%list.
Proof.
  revert acc. induction l as [|x l IH]; intros acc; simpl.
  - by rewrite app_nil_r.
  - by rewrite IH, app_assoc.
Qed.

Lemma indexOf_absent array v : v ∉ array → indexOf array v = (-1)%Z.
Proof.
  induction array as [|x rest IH]; simpl; [done|].
  intros [Hx Hrest]%not_elem_of_cons.
  rewrite decide_False by congruence. rewrite IH by done. reflexivity.
Qed.

Lemma indexOf_present array v : v ∈ array → (0 ≤ indexOf array v)%Z.
Proof.
  induction array as [|x rest IH]; simpl.
  - intros Hin. by apply elem_of_nil in Hin.
  - intros Hin. destruct (decide (x = v)) as [->|Hne]; [lia|].
    apply elem_of_cons in Hin as [->|Hin]; [done|].
    specialize (IH Hin). destruct (indexOf rest v <? 0)%Z eqn:Hlt; lia.
Qed.

Lemma indexOf_later array v :
  v ∈ array → head array ≠ Some v → (0 < indexOf array v)%Z.
Proof.
  destruct array as [|x rest]; simpl.
  - intros Hin. by apply elem_of_nil in Hin.
  - intros Hin Hhead. rewrite decide_False by congruence.
    apply elem_of_cons in Hin as [->|Hin]; [done|].
    pose proof (indexOf_present rest v Hin).
    destruct (indexOf rest v <? 0)%Z eqn:Hlt; lia.
Qed.

Lemma getDependencies_unfold registered componentType :
  getDependencies registered componentType
  = let deps := declared_dependencies registered componentType in
    if negb (String.eqb componentType "dataset")
       && (indexOf deps "dataset" <=? 0)%Z
    then "dataset" :: deps
    else deps.
Proof.
  unfold getDependencies, declared_dependencies. by rewrite fold_left_concat.
Qed.

Lemma getDependencies_of_dataset registered :
  getDependencies registered "dataset" = declared_dependencies registered "dataset".
Proof. by rewrite getDependencies_unfold. Qed.

Lemma getDependencies_prepends registered componentType :
  componentType ≠ "dataset" →
  (indexOf (declared_dependencies registered componentType) "dataset" ≤ 0)%Z →
  getDependencies registered componentType
  = "dataset" :: declared_dependencies registered componentType.
Proof.
  intros Hne Hle. rewrite getDependencies_unfold. cbv zeta.
  apply String.eqb_neq in Hne. rewrite Hne. simpl.
  by rewrite (proj2 (Z.leb_le _ _) Hle).
Qed.

Lemma getDependencies_leaves registered componentType :
  (0 < indexOf (declared_dependencies registered componentType) "dataset")%Z →
  getDependencies registered componentType
  = declared_dependencies registered componentType.
Proof.
  intros Hlt. rewrite getDependencies_unfold. cbv zeta.
  rewrite (proj2 (Z.leb_gt _ _) Hlt). by rewrite andb_false_r.
Qed.

Lemma elem_of_declared_dependencies registered componentType m :
  m ∈ declared_dependencies registered componentType
  ↔ ∃ clz deps type,
      clz ∈ getClassesByMainType registered componentType
      ∧ prototype_dependencies clz = Some deps
      ∧ type ∈ deps
      ∧ main (parseClassType type) = m.
Proof.
  unfold declared_dependencies. rewrite list_elem_of_fmap. split.
  - intros (type & -> & Hin). apply list_elem_of_In, in_concat in Hin.
    destruct Hin as (deps & Hdeps & Hin).
    apply list_elem_of_In, list_elem_of_fmap in Hdeps.
    destruct Hdeps as (clz & -> & Hclz).
    destruct (prototype_dependencies clz) as [deps|] eqn:Hp; simpl in Hin; [|done].
    exists clz, deps, type. by rewrite <- list_elem_of_In in Hin.
  - intros (clz & deps & type & Hclz & Hp & Hin & <-).
    exists type. split; [done|]. apply list_elem_of_In, in_concat.
    exists deps. split; [|by apply list_elem_of_In].
    apply list_elem_of_In, list_elem_of_fmap. exists clz. by rewrite Hp.
Qed.

End getDependencies_facts.

(** C3, as the code has it.  [getDependencies(main)] returns, with their
    repetitions, the dependencies lists of the constructors registered under
    [main] one after the other in registration order, each entry cut down to
    its main type; when [main] is "dataset" that list is the result, when
    [main] is another type and "dataset" is not in the list it is the result
    with "dataset" put in front, and when "dataset" is in the list after its
    first place the list is the result as it is. *)
Theorem getDependencies_collects registered componentType :
  let deps := declared_dependencies registered componentType in
  (componentType = "dataset" → getDependencies registered componentType = deps)
  ∧ (componentType ≠ "dataset" → "dataset" ∉ deps →
     getDependencies registered componentType = "dataset" :: deps)
  ∧ (componentType ≠ "dataset" → "dataset" ∈ deps → head deps ≠ Some "dataset" →
     getDependencies registered componentType = deps).
Proof.
  intros deps. split; [|split].
  - intros ->. apply getDependencies_of_dataset.
  - intros Hne Hnot. apply getDependencies_prepends; [done|].
    fold deps. rewrite indexOf_absent by done. lia.
  - intros Hne Hin Hhead. apply getDependencies_leaves.
    by apply indexOf_later.
Qed.

(** C4, as the code has it.  [getDependencies("dataset")] contains "dataset"
    only when a constructor registered under "dataset" itself declares a
    dependency whose main type is "dataset" (it is never put there); for
    every other main type that has a constructor registered under it, the
    result contains "dataset", whether or not a registered subtype declares
    it. *)
Theorem getDependencies_dataset :
  (∀ registered,
     "dataset" ∈ getDependencies registered "dataset"
     ↔ ∃ clz deps type,
         clz ∈ clazz.getClassesByMainType registered "dataset"
         ∧ clazz.prototype_dependencies clz = Some deps
         ∧ type ∈ deps
         ∧ clazz.main (clazz.parseClassType type) = "dataset")
  ∧ (∀ registered componentType,
       componentType ≠ "dataset" →
       clazz.getClassesByMainType registered componentType ≠ [] →
       "dataset" ∈ getDependencies registered componentType).
Proof.
  split.
  - intros registered.
    rewrite getDependencies_of_dataset. apply elem_of_declared_dependencies.
  - intros registered componentType Hne _.
    destruct (Z_le_gt_dec
                (zrUtil.indexOf (declared_dependencies registered componentType)
                   "dataset") 0) as [Hle|Hgt].
    + rewrite getDependencies_prepends by done. apply list_elem_of_here.
    + rewrite getDependencies_leaves by lia.
      destruct (decide ("dataset" ∈ declared_dependencies registered componentType))
        as [Hin|Hnot]; [done|].
      rewrite indexOf_absent in Hgt by done. lia.
Qed.

(** ** Dependencies when an entry is missing *)

Section getDependencies_entries_facts.

Import zrUtil clazz.

Lemma collect_entries_throws classes :
  fold_left
    (fun deps clz =>
       match deps, clz with
       | Returns deps, Some clz =>
           Returns (deps ++ default [] (prototype_dependencies clz))%list
       | Returns _, None => Throws_TypeError
       | Throws_TypeError, _ => Throws_TypeError
       end)
    classes (@Throws_TypeError (list string))
  = Throws_TypeError.
Proof. induction classes as [|[clz|] rest IH]; simpl; done. Qed.

Lemma collect_entries_undefined classes acc :
  None ∈ classes →
  fold_left
    (fun deps clz =>
       match deps, clz with
       | Returns deps, Some clz =>
           Returns (deps ++ default [] (prototype_dependencies clz))%list
       | Returns _, None => Throws_TypeError
       | Throws_TypeError, _ => Throws_TypeError
       end)
    classes acc
  = Throws_TypeError.
Proof.
  revert acc. induction classes as [|entry rest IH]; intros acc Hin.
  - by apply elem_of_nil in Hin.
  - apply elem_of_cons in Hin as [<-|Hin]; simpl.
    + destruct acc; apply collect_entries_throws.
    + by apply IH.
Qed.

Lemma collect_entries_defined classes acc :
  fold_left
    (fun deps clz =>
       match deps, clz with
       | Returns deps, Some clz =>
           Returns (deps ++ default [] (prototype_dependencies clz))%list
       | Returns _, None => Throws_TypeError
       | Throws_TypeError, _ => Throws_TypeError
       end)
    (map Some classes) (Returns acc)
  = Returns
      (fold_left
         (fun deps clz => (deps ++ default [] (prototype_dependencies clz))%list)
         classes acc).
Proof.
  revert acc. induction classes as [|clz rest IH]; intros acc; simpl; [done|].
  apply IH.
Qed.

(** On entries that all are constructors the two readings agree. *)
Lemma getDependencies_entries_defined registered componentType :
  getDependencies_entries
    (map Some (getClassesByMainType registered componentType)) componentType
  = Returns (getDependencies registered componentType).
Proof.
  unfold getDependencies_entries, getDependencies.
  by rewrite collect_entries_defined.
Qed.

Lemma getDependencies_entries_undefined classes componentType :
  None ∈ classes →
  getDependencies_entries classes componentType = Throws_TypeError.
Proof.
  intros Hin. unfold getDependencies_entries.
  by rewrite collect_entries_undefined.
Qed.

Lemma getDependencies_entries_dataset classes componentType deps :
  componentType ≠ "dataset" →
  getDependencies_entries classes componentType = Returns deps →
  "dataset" ∈ deps.
Proof.
  intros Hne. unfold getDependencies_entries.
  destruct (fold_left _ classes (Returns [])) as [collected|]; [|done].
  apply String.eqb_neq in Hne. rewrite Hne. cbn [negb andb].
  set (mains := map _ collected).
  destruct (indexOf mains "dataset" <=? 0)%Z eqn:Hle; intros [= <-].
  - apply list_elem_of_here.
  - apply Z.leb_gt in Hle.
    destruct (decide ("dataset" ∈ mains)) as [Hin|Hnot]; [done|].
    rewrite indexOf_absent in Hle by done. lia.
Qed.

End getDependencies_entries_facts.

(** C7, as the code has it.  For a main type other than "dataset" with no
    constructor registered under it, [getDependencies] does not return an
    empty result: whatever entries [getClassesByMainType] hands it, a result
    it returns contains "dataset", and it is the one-element list with
    "dataset" when there is no entry at all; only for "dataset" itself is
    the result then empty.  (An entry that is [undefined] makes the call
    throw, [clz.prototype] being read without a test.) *)
Theorem getDependencies_without_constructor classes componentType :
  Forall (fun entry => entry = None) classes →
  (componentType ≠ "dataset" →
   getDependencies_entries classes componentType ≠ Returns []
   ∧ ∀ deps, getDependencies_entries classes componentType = Returns deps →
             deps = ["dataset"])
  ∧ (classes = [] →
     getDependencies_entries classes componentType
     = Returns (if decide (componentType = "dataset") then [] else ["dataset"]))
  ∧ (classes ≠ [] →
     getDependencies_entries classes componentType = Throws_TypeError).
Proof.
  intros Hnone.
  assert (Hempty : classes = [] →
    getDependencies_entries classes componentType
    = Returns (if decide (componentType = "dataset") then [] else ["dataset"])).
  { intros ->. unfold getDependencies_entries. simpl.
    destruct (decide (componentType = "dataset")) as [->|Hne]; [done|].
    apply String.eqb_neq in Hne. by rewrite Hne. }
  assert (Hthrows : classes ≠ [] →
    getDependencies_entries classes componentType = Throws_TypeError).
  { intros Hsome. apply getDependencies_entries_undefined.
    destruct classes as [|entry rest]; [done|].
    apply Forall_cons in Hnone as [-> _]. apply list_elem_of_here. }
  split; [|by split].
  intros Hne. destruct classes as [|entry rest].
  - rewrite Hempty by done. rewrite decide_False by done.
    split; [done|]. by intros deps [= <-].
  - rewrite Hthrows by done. split; [done|]. by intros deps [=].
Qed.

(** ** The statements at sample inputs *)

Local Ltac by_evaluation := apply (bool_decide_unpack _); vm_compute; exact I.

(** The precedence of C1 at the option [{a: 1}], the theme [{a: 2, b: 2}]
    and the default option [{a: 3, b: 3, c: 3}]. *)
Lemma mergeDefaultAndTheme_precedence_witness :
  fst (@mergeDefaultAndTheme samples.keep_target
         (samples.instance 1 samples.direct_abc [] LayoutMode_undefined)
         [("a", VNum 1)] samples.theme_ab ∅)
  = [("a", VNum 1); ("b", VNum 2); ("c", VNum 3)].
Proof.
  apply (@mergeDefaultAndTheme_precedence samples.keep_target
           (samples.instance 1 samples.direct_abc [] LayoutMode_undefined)
           [("a", VNum 1)] samples.theme_ab ∅);
    first [reflexivity | by_evaluation].
Defined.

(** The patch of C2 at the current option [{a: 1, b: 2}] and the incoming
    option [{b: 9, c: 9}]. *)
Lemma mergeOption_patch_witness :
  this_option
    (@mergeOption samples.keep_target
       (samples.instance 1 samples.direct_abc
          [("a", VNum 1); ("b", VNum 2)] LayoutMode_undefined)
       [("b", VNum 9); ("c", VNum 9)] samples.theme_ab)
  = [("a", VNum 1); ("b", VNum 9); ("c", VNum 9)].
Proof.
  apply (@mergeOption_patch samples.keep_target
           (samples.instance 1 samples.direct_abc
              [("a", VNum 1); ("b", VNum 2)] LayoutMode_undefined)
           [("b", VNum 9); ("c", VNum 9)] samples.theme_ab);
    first [reflexivity | by_evaluation].
Defined.

(** C9 at a component in box layout mode whose user option sets [left], and
    at the same component without layout mode. *)
Lemma mergeDefaultAndTheme_layoutMode_witness :
  get_prop "left"
    (layout.getLayoutParams [("left", VNum 10); ("a", VNum 1)])
  = Some (VNum 10)
  ∧ get_prop "a"
      (layout.getLayoutParams [("left", VNum 10); ("a", VNum 1)])
    = None
  ∧ fst (@mergeDefaultAndTheme samples.keep_target
           (samples.instance 1 samples.direct_abc [] LayoutMode_undefined)
           [("left", VNum 10); ("a", VNum 1)] samples.theme_ab ∅)
    = [("left", VNum 10); ("a", VNum 1); ("b", VNum 2); ("c", VNum 3)].
Proof.
  pose proof (proj1 (mergeDefaultAndTheme_layoutMode
                samples.keep_target samples.keep_target
                (samples.instance 1 samples.direct_abc [] (LayoutMode_name "box"))
                [("left", VNum 10); ("a", VNum 1)] samples.theme_ab ∅)
                eq_refl) as [_ Hsnapshot].
  pose proof (proj2 (mergeDefaultAndTheme_layoutMode
                samples.keep_target samples.keep_target
                (samples.instance 1 samples.direct_abc [] LayoutMode_undefined)
                [("left", VNum 10); ("a", VNum 1)] samples.theme_ab ∅)
                eq_refl) as [Hmerged _].
  split; [exact (Hsnapshot "left")|]. split; [exact (Hsnapshot "a")|].
  exact Hmerged.
Defined.

(** C5 at a directly declared class and at the classes [Derived] and
    [Derived2]. *)
Lemma getDefaultOption_inheritance_witness :
  getDefaultOption
    (samples.instance 1 samples.direct_abc [] LayoutMode_undefined) ∅
  = (Some [("a", VNum 3); ("b", VNum 3); ("c", VNum 3)], ∅)
  ∧ fst (getDefaultOption
           (samples.instance 1 samples.Derived [] LayoutMode_undefined) ∅)
    = Some (merge_optList (optList samples.Derived))
  ∧ get_prop "aaa" (merge_optList (optList samples.Derived2)) = Some (VNum 9)
  ∧ get_prop "bbb" (merge_optList (optList samples.Derived2))
    = get_prop "bbb" (inherited_defaultOption samples.Derived2).
Proof.
  destruct getDefaultOption_inheritance as (Hdirect & Hextended & _ & Hdeclared & _).
  split; [|split].
  - apply (Hdirect
             (samples.instance 1 samples.direct_abc [] LayoutMode_undefined) ∅).
    reflexivity.
  - apply (Hextended
             (samples.instance 1 samples.Derived [] LayoutMode_undefined) ∅);
      [reflexivity|].
    intros kept Hkept. rewrite lookup_empty in Hkept. discriminate Hkept.
  - destruct (Hdeclared samples.Derived2 [("aaa", VNum 9)] eq_refl)
      as (_ & Hwins & Hinherits); [by_evaluation|].
    split.
    + apply Hwins; reflexivity.
    + apply Hinherits; reflexivity.
Defined.

(** C6 at two instances of [Derived], at the addresses 1 and 2. *)
Lemma getDefaultOption_cached_per_instance_witness :
  walks_chain
    (samples.instance 1 samples.Derived [] LayoutMode_undefined)
    (snd (getDefaultOption
            (samples.instance 1 samples.Derived [] LayoutMode_undefined) ∅))
  = false
  ∧ walks_chain
      (samples.instance 2 samples.Derived [] LayoutMode_undefined)
      (snd (getDefaultOption
              (samples.instance 1 samples.Derived [] LayoutMode_undefined) ∅))
    = true.
Proof.
  destruct (getDefaultOption_cached_per_instance
              (samples.instance 1 samples.Derived [] LayoutMode_undefined) ∅
              eq_refl) as (_ & _ & Hsame & _ & _ & Hother).
  split; [exact Hsame|].
  apply (Hother (samples.instance 2 samples.Derived [] LayoutMode_undefined));
    first [reflexivity | by_evaluation].
Defined.

(** C3 at the dataset itself, at a type whose classes do not name the
    dataset, and at one whose class names it in second place. *)
Lemma getDependencies_collects_witness :
  getDependencies samples.dataset_on_dataset "dataset" = ["dataset"]
  ∧ getDependencies samples.axis_classes "xAxis" = ["dataset"; "grid"; "grid"]
  ∧ getDependencies
      [ ({| clazz.main := "series"; clazz.sub := "line" |},
         clazz.MkConstructor true None (Some ["grid"; "dataset.source"]) None) ]
      "series"
    = ["grid"; "dataset"].
Proof.
  split; [|split].
  - apply (proj1 (getDependencies_collects samples.dataset_on_dataset "dataset")).
    reflexivity.
  - apply (proj1 (proj2 (getDependencies_collects samples.axis_classes "xAxis")));
      by_evaluation.
  - apply (proj2 (proj2 (getDependencies_collects
             [ ({| clazz.main := "series"; clazz.sub := "line" |},
                clazz.MkConstructor true None
                  (Some ["grid"; "dataset.source"]) None) ]
             "series"))); by_evaluation.
Defined.

(** C4 at the axis classes, none of which names the dataset. *)
Lemma getDependencies_dataset_witness :
  "dataset" ∈ getDependencies samples.axis_classes "xAxis".
Proof.
  apply (proj2 getDependencies_dataset samples.axis_classes "xAxis").
  - by_evaluation.
  - discriminate.
Defined.

(** C7 at a main type for which there is no entry, and at one for which
    the only entry is [undefined]. *)
Lemma getDependencies_without_constructor_witness :
  getDependencies_entries [] "legend" = Returns ["dataset"]
  ∧ getDependencies_entries [None] "legend" = Throws_TypeError
  ∧ getDependencies_entries [None] "legend" ≠ Returns [].
Proof.
  split; [|split].
  - apply (proj1 (proj2 (getDependencies_without_constructor [] "legend"
                           (Forall_nil_2 _)))).
    reflexivity.
  - apply (proj2 (proj2 (getDependencies_without_constructor [None] "legend"
                           (Forall_cons_2 _ _ _ eq_refl (Forall_nil_2 _))))).
    discriminate.
  - apply (proj1 (getDependencies_without_constructor [None] "legend"
                    (Forall_cons_2 _ _ _ eq_refl (Forall_nil_2 _)))).
    by_evaluation.
Defined.

(** C8 at a component with the [optionUpdated] of [ComponentModel], and at
    one whose [optionUpdated] records in the option that it ran. *)
Lemma construct_merges_then_updates_witness :
  this_option
    (fst (@construct samples.keep_target
            (samples.instance 1 samples.direct_abc [] LayoutMode_undefined)
            [("a", VNum 1)] samples.theme_ab subclass_samples.first_grid ∅))
  = [("a", VNum 1); ("b", VNum 2); ("c", VNum 3)]
  ∧ this_option
      (fst (@construct samples.keep_target
              (with_optionUpdated
                 (samples.instance 1 samples.direct_abc [] LayoutMode_undefined)
                 samples.mark_checked)
              [("a", VNum 1)] samples.theme_ab subclass_samples.first_grid ∅))
    = [("a", VNum 1); ("b", VNum 2); ("c", VNum 3); ("checked", VBool true)]
  ∧ get_prop "b"
      (this_option
         (fst (@construct samples.keep_target
                 (samples.instance 1 samples.direct_abc [] LayoutMode_undefined)
                 [("a", VNum 1)] samples.theme_ab subclass_samples.first_grid
                 ∅)))
    = Some (VNum 2).
Proof.
  split; [|split].
  - apply (proj2 (proj2 (proj2 (proj2 (proj2
             (construct_merges_then_updates samples.keep_target
                (samples.instance 1 samples.direct_abc [] LayoutMode_undefined)
                [("a", VNum 1)] samples.theme_ab subclass_samples.first_grid
                ∅)))))).
    reflexivity.
  - apply (proj1
             (construct_merges_then_updates samples.keep_target
                (with_optionUpdated
                   (samples.instance 1 samples.direct_abc []
                      LayoutMode_undefined)
                   samples.mark_checked)
                [("a", VNum 1)] samples.theme_ab subclass_samples.first_grid
                ∅)).
  - destruct (proj2 (proj2 (proj2 (proj2 (proj2
                (construct_merges_then_updates samples.keep_target
                   (samples.instance 1 samples.direct_abc []
                      LayoutMode_undefined)
                   [("a", VNum 1)] samples.theme_ab subclass_samples.first_grid
                   ∅))))) eq_refl) as [_ Hlaw].
    rewrite Hlaw; [reflexivity | reflexivity | by_evaluation | by_evaluation].
Defined.

(** C10 at an instance of [ComponentModel] itself and at an instance of the
    subclass [Grid], whose prototype sets the type and nothing else. *)
Lemma new_instance_identity_witness :
  type (new_instance [] ComponentModel_class LayoutMode_undefined
          ComponentModel_prototype.optionUpdated 1 "ec_cpt_model_0" []
          samples.theme_ab)
  = "component"
  ∧ id (new_instance [subclass_samples.grid_prototype] subclass_samples.Grid
          LayoutMode_undefined ComponentModel_prototype.optionUpdated
          1 "ec_cpt_model_0" [] samples.theme_ab)
    = ""
  ∧ type (new_instance [subclass_samples.grid_prototype] subclass_samples.Grid
            LayoutMode_undefined ComponentModel_prototype.optionUpdated
            1 "ec_cpt_model_0" [] samples.theme_ab)
    = "grid".
Proof.
  split; [|split].
  - apply (new_instance_identity [] ComponentModel_class LayoutMode_undefined
             ComponentModel_prototype.optionUpdated 1 "ec_cpt_model_0" []
             samples.theme_ab).
    apply Forall_nil_2.
  - apply (new_instance_identity [subclass_samples.grid_prototype]
             subclass_samples.Grid LayoutMode_undefined
             ComponentModel_prototype.optionUpdated 1 "ec_cpt_model_0" []
             samples.theme_ab).
    apply Forall_cons_2; [reflexivity | apply Forall_nil_2].
  - destruct (new_instance_identity [subclass_samples.grid_prototype]
                subclass_samples.Grid LayoutMode_undefined
                ComponentModel_prototype.optionUpdated 1 "ec_cpt_model_0" []
                samples.theme_ab)
      as (_ & _ & _ & _ & _ & _ & _ & _ & Hnearest & _).
    apply (Hnearest [] subclass_samples.grid_prototype [] "grid" eq_refl);
      [apply Forall_nil_2 | reflexivity].
Defined.

(** ** Where the code departs from what is said of it *)

(** C10 as stated fails: a fresh instance of the subclass [Grid], whose
    prototype sets [type] to "grid", does not have the type "component". *)
Lemma subclass_instance_has_its_own_type :
  type (new_instance [subclass_samples.grid_prototype] subclass_samples.Grid
          LayoutMode_undefined ComponentModel_prototype.optionUpdated
          1 "ec_cpt_model_0" [] samples.theme_ab)
  = "grid"
  ∧ type (new_instance [subclass_samples.grid_prototype] subclass_samples.Grid
            LayoutMode_undefined ComponentModel_prototype.optionUpdated
            1 "ec_cpt_model_0" [] samples.theme_ab)
    ≠ "component".
Proof. split; [reflexivity | discriminate]. Qed.

(** C3 as stated fails: the result is not deduplicated.  Two classes under
    one main type that both depend on the grid give the grid twice. *)
Lemma getDependencies_keeps_duplicates :
  getDependencies samples.axis_classes "xAxis" = ["dataset"; "grid"; "grid"]
  ∧ ¬ NoDup (getDependencies samples.axis_classes "xAxis").
Proof.
  split; [reflexivity|].
  change (getDependencies samples.axis_classes "xAxis")
    with ["dataset"; "grid"; "grid"].
  intros Hnd. apply NoDup_cons in Hnd as [_ Hnd].
  apply NoDup_cons in Hnd as [Hnot _]. apply Hnot, list_elem_of_here.
Qed.

(** C4 as stated fails: a class registered under "dataset" that names the
    dataset among its dependencies puts it in [getDependencies("dataset")]. *)
Lemma getDependencies_dataset_may_contain_dataset :
  getDependencies samples.dataset_on_dataset "dataset" = ["dataset"]
  ∧ "dataset" ∈ getDependencies samples.dataset_on_dataset "dataset".
Proof. split; [reflexivity | apply list_elem_of_here]. Qed.

(** C6 as stated fails: after a first instance of an extended class has
    computed its default option, a second instance of the same class finds
    nothing kept for it and walks the chain again. *)
Lemma getDefaultOption_not_shared_between_instances :
  let first := samples.instance 1 samples.Derived [] LayoutMode_undefined in
  let second := samples.instance 2 samples.Derived [] LayoutMode_undefined in
  let after := snd (getDefaultOption first ∅) in
  ctor first = ctor second
  ∧ clazz.isExtendedClass (ctor first) = true
  ∧ after !! addr second = None
  ∧ walks_chain second after = true
  ∧ snd (getDefaultOption second after) ≠ after.
Proof.
  repeat split.
  intros Heq.
  assert (Hlookup : snd (getDefaultOption
                           (samples.instance 2 samples.Derived [] LayoutMode_undefined)
                           (snd (getDefaultOption
                                   (samples.instance 1 samples.Derived []
                                      LayoutMode_undefined) ∅)))
                    !! 2%positive
                    = snd (getDefaultOption
                             (samples.instance 1 samples.Derived []
                                LayoutMode_undefined) ∅) !! 2%positive)
    by (by rewrite Heq).
  vm_compute in Hlookup. discriminate Hlookup.
Qed.

(** C7 as stated fails: for the main type "legend" with no constructor
    registered under it the result is not the empty list, be it that
    [getClassesByMainType] hands over no entry (the result is then the list
    with "dataset") or the one entry [undefined] (the call then throws). *)
Lemma getDependencies_without_constructor_not_empty :
  getDependencies_entries [] "legend" = Returns ["dataset"]
  ∧ getDependencies_entries [None] "legend" = Throws_TypeError
  ∧ getDependencies_entries [] "legend" ≠ Returns []
  ∧ getDependencies_entries [None] "legend" ≠ Returns [].
Proof. repeat split; discriminate. Qed.

(** ** Merging what is already merged *)

Section settled_facts.

Import zrUtil.

(** Induction on a value with the properties of a plain object at hand. *)
Lemma value_nested_ind (P : value → Prop) :
  P VUndefined → P VNull → (∀ b, P (VBool b)) → (∀ n, P (VNum n)) →
  (∀ s, P (VStr s)) → (∀ items, P (VArr items)) →
  (∀ fields, Forall (fun p => P (snd p)) fields → P (VObj fields)) →
  ∀ v, P v.
Proof.
  intros Hu Hn Hb Hz Hs Ha Ho. fix IH 1.
  intros [| |b|n|s|items|fields];
    [exact Hu | exact Hn | apply Hb | apply Hz | apply Hs | apply Ha |].
  apply Ho. induction fields as [|[k x] rest IHrest]; constructor.
  - apply IH.
  - apply IHrest.
Qed.

Lemma distinct_keys_obj fields :
  distinct_keys (VObj fields) = distinct_fields fields.
Proof.
  unfold distinct_fields. simpl. f_equal.
  induction fields as [|[k x] rest IH]; simpl; [done|]. by rewrite IH.
Qed.

Lemma settled_obj overwrite fields target :
  settled overwrite (VObj fields) target ↔ settled_fields overwrite fields target.
Proof.
  unfold settled_fields. simpl.
  induction fields as [|[k x] rest IH]; simpl.
  - split; [constructor | done].
  - rewrite Forall_cons, IH. done.
Qed.

Lemma distinct_fields_cons k x rest :
  distinct_fields ((k, x) :: rest) = true →
  (k ∉ keys rest) ∧ distinct_keys x = true ∧ distinct_fields rest = true.
Proof.
  unfold distinct_fields. simpl. intros Hd.
  apply andb_true_iff in Hd as [Hnd Hd]. apply andb_true_iff in Hd as [Hx Hrest].
  apply bool_decide_eq_true in Hnd. apply NoDup_cons in Hnd as [Hk Hnd].
  repeat split; try done. apply andb_true_iff. split; [|done].
  by apply bool_decide_eq_true.
Qed.

Lemma distinct_fields_NoDup l : distinct_fields l = true → NoDup (keys l).
Proof.
  unfold distinct_fields. intros [Hnd _]%andb_true_iff.
  by apply bool_decide_eq_true in Hnd.
Qed.

Lemma distinct_fields_elem l k x :
  distinct_fields l = true → (k, x) ∈ l →
  get_prop k l = Some x ∧ distinct_keys x = true.
Proof.
  induction l as [|[k' x'] rest IH]; intros Hd Hin.
  - by apply elem_of_nil in Hin.
  - apply distinct_fields_cons in Hd as (Hk & Hx & Hrest). simpl.
    apply elem_of_cons in Hin as [Heq|Hin].
    + injection Heq as -> ->. by rewrite decide_True.
    + destruct (decide (k' = k)) as [->|Hne].
      * exfalso. apply Hk. apply list_elem_of_fmap. by exists (k, x).
      * by apply IH.
Qed.

Lemma set_prop_same key v o : get_prop key o = Some v → set_prop key v o = o.
Proof.
  induction o as [|[k w] rest IH]; simpl; [done|].
  destruct (decide (k = key)) as [->|Hne].
  - by intros [= ->].
  - intros Hget. by rewrite IH.
Qed.

(** A target that is settled is left as it is. *)
Lemma merge_prop_settled overwrite key sv target :
  (is_plain_object sv = true →
   ∀ tf, settled overwrite sv tf → merge tf sv overwrite = tf) →
  settled_prop overwrite sv (settled overwrite sv) (get_prop key target) →
  merge_prop overwrite key sv (fun tp => merge tp sv overwrite) target = target.
Proof.
  intros Hrec Hset. unfold merge_prop, has_prop, clone.
  destruct (get_prop key target) as [tv|] eqn:Ht; [|done].
  unfold settled_prop in Hset.
  destruct sv, tv;
    try (cbn [negb]; rewrite orb_false_r; destruct overwrite;
         [apply set_prop_same; congruence | done]).
  rewrite (Hrec eq_refl _ Hset). by apply set_prop_same.
Qed.

Lemma merge_fields_settled overwrite l target :
  Forall (fun p => is_plain_object (snd p) = true →
                   ∀ tf, settled overwrite (snd p) tf →
                         merge tf (snd p) overwrite = tf) l →
  settled_fields overwrite l target → merge_fields overwrite l target = target.
Proof.
  unfold settled_fields. induction l as [|[k sv] rest IH]; simpl; [done|].
  intros [Hsv Hrest]%Forall_cons [Hk Hset]%Forall_cons. simpl in *.
  rewrite merge_prop_settled by done. by apply IH.
Qed.

Lemma merge_settled_value overwrite sv :
  is_plain_object sv = true →
  ∀ tf, settled overwrite sv tf → merge tf sv overwrite = tf.
Proof.
  induction sv as [| | | | | |fields IH] using value_nested_ind; try done.
  intros _ tf Hset. rewrite merge_obj. apply merge_fields_settled; [done|].
  by apply settled_obj.
Qed.

Lemma merge_settled overwrite target source :
  settled_fields overwrite (enumerable source) target →
  merge target source overwrite = target.
Proof.
  intros Hset. rewrite merge_enumerable. apply merge_fields_settled; [|done].
  apply Forall_forall. intros p _. apply merge_settled_value.
Qed.

(** A plain object with distinct keys is settled in itself. *)
Lemma settled_prop_self overwrite x :
  (is_plain_object x = true → distinct_keys x = true →
   settled overwrite x (enumerable x)) →
  distinct_keys x = true →
  settled_prop overwrite x (settled overwrite x) (Some x).
Proof.
  intros Hself Hd.
  destruct x; cbn -[settled]; try (by destruct overwrite).
  by apply Hself.
Qed.

Lemma settled_self_value overwrite sv :
  is_plain_object sv = true → distinct_keys sv = true →
  settled overwrite sv (enumerable sv).
Proof.
  induction sv as [| | | | | |fields IH] using value_nested_ind; try done.
  intros _ Hd. rewrite distinct_keys_obj in Hd.
  apply settled_obj. unfold settled_fields. simpl.
  rewrite Forall_forall in IH. apply Forall_forall. intros [k x] Hin.
  destruct (distinct_fields_elem _ _ _ Hd Hin) as [Hget Hx]. simpl.
  rewrite Hget. apply settled_prop_self; [|done]. by apply (IH (k, x)).
Qed.

Lemma settled_fields_self overwrite l :
  distinct_fields l = true → settled_fields overwrite l l.
Proof.
  intros Hd. apply settled_obj.
  apply (settled_self_value overwrite (VObj l)); [done|].
  by rewrite distinct_keys_obj.
Qed.

(** After a source with distinct keys is merged into it, a target is
    settled. *)
Lemma settled_prop_merged overwrite sv t :
  (is_plain_object sv = true →
   ∀ tf, settled overwrite sv (merge tf sv overwrite)) →
  distinct_keys sv = true →
  settled_prop overwrite sv (settled overwrite sv)
    (merged_prop overwrite t (Some sv)).
Proof.
  intros Hrec Hd.
  pose proof (settled_self_value overwrite sv) as Hself.
  unfold merged_prop.
  destruct sv; destruct t as [[]|]; cbn -[settled merge];
    try (by destruct overwrite);
    try (destruct overwrite; cbn -[settled merge]; [by apply Hself | done]).
  - by apply Hrec.
  - by apply Hself.
Qed.

Lemma settled_fields_merged overwrite l target :
  Forall (fun p => is_plain_object (snd p) = true →
                   ∀ tf, settled overwrite (snd p)
                           (merge tf (snd p) overwrite)) l →
  distinct_fields l = true →
  settled_fields overwrite l (merge_fields overwrite l target).
Proof.
  intros Hrec Hd. unfold settled_fields.
  rewrite Forall_forall in Hrec. apply Forall_forall. intros [k sv] Hin.
  destruct (distinct_fields_elem _ _ _ Hd Hin) as [Hget Hsv]. simpl.
  rewrite get_prop_merge_fields by by apply distinct_fields_NoDup.
  rewrite Hget. apply settled_prop_merged; [|done]. by apply (Hrec (k, sv)).
Qed.

Lemma settled_merged_value overwrite sv :
  is_plain_object sv = true → distinct_keys sv = true →
  ∀ tf, settled overwrite sv (merge tf sv overwrite).
Proof.
  induction sv as [| | | | | |fields IH] using value_nested_ind; try done.
  intros _ Hd tf. rewrite distinct_keys_obj in Hd.
  rewrite merge_obj. apply settled_obj. apply settled_fields_merged; [|done].
  rewrite Forall_forall in IH. apply Forall_forall. intros [k x] Hin Hx.
  destruct (distinct_fields_elem _ _ _ Hd Hin) as [_ Hdx].
  by apply (IH (k, x)).
Qed.

Lemma settled_merged overwrite target source :
  distinct_fields (enumerable source) = true →
  settled_fields overwrite (enumerable source) (merge target source overwrite).
Proof.
  intros Hd. rewrite merge_enumerable. apply settled_fields_merged; [|done].
  apply Forall_forall. intros [k x] Hin Hx.
  destruct (distinct_fields_elem _ _ _ Hd Hin) as [_ Hdx].
  by apply settled_merged_value.
Qed.

(** A merge that does not overwrite keeps a target settled. *)
Lemma settled_prop_kept overwrite sv key key' sv' target :
  (is_plain_object sv = true →
   ∀ tf src, settled overwrite sv tf → settled overwrite sv (merge tf src false)) →
  settled_prop overwrite sv (settled overwrite sv) (get_prop key target) →
  settled_prop overwrite sv (settled overwrite sv)
    (get_prop key
       (merge_prop false key' sv' (fun tp => merge tp sv' false) target)).
Proof.
  intros Hrec Hset. destruct (decide (key' = key)) as [->|Hne].
  - rewrite get_prop_merge_prop_eq.
    destruct (get_prop key target) as [tv|]; [|done]. unfold merged_prop.
    destruct sv', tv; try done.
    unfold settled_prop in *. destruct sv; try (by destruct overwrite).
    by apply Hrec.
  - by rewrite get_prop_merge_prop_ne.
Qed.

Lemma settled_fields_kept overwrite l l' target :
  Forall (fun p => is_plain_object (snd p) = true →
                   ∀ tf src, settled overwrite (snd p) tf →
                             settled overwrite (snd p) (merge tf src false)) l →
  settled_fields overwrite l target →
  settled_fields overwrite l (merge_fields false l' target).
Proof.
  intros Hrec. revert target.
  induction l' as [|[k' sv'] rest IH]; intros target Hset; simpl; [done|].
  apply IH. unfold settled_fields in *.
  rewrite Forall_forall in Hrec, Hset. apply Forall_forall. intros p Hin.
  apply settled_prop_kept; [by apply Hrec | by apply Hset].
Qed.

Lemma settled_kept_value overwrite sv :
  is_plain_object sv = true →
  ∀ tf src, settled overwrite sv tf → settled overwrite sv (merge tf src false).
Proof.
  induction sv as [| | | | | |fields IH] using value_nested_ind; try done.
  intros _ tf src Hset. rewrite merge_enumerable.
  apply settled_obj, settled_fields_kept; [done | by apply settled_obj].
Qed.

Lemma settled_kept overwrite l target source :
  settled_fields overwrite l target →
  settled_fields overwrite l (merge target source false).
Proof.
  intros Hset. rewrite merge_enumerable. apply settled_fields_kept; [|done].
  apply Forall_forall. intros p _. apply settled_kept_value.
Qed.

End settled_facts.

(** ** Further properties of patching and initialising *)

Section keys_facts.

Import zrUtil.

Lemma has_prop_merged_prop overwrite t s :
  match merged_prop overwrite t s with Some _ => true | None => false end
  = match t with Some _ => true | None => false end
    || match s with Some _ => true | None => false end.
Proof.
  destruct s as [sv|]; [|by destruct t].
  destruct t as [tv|]; [|by destruct sv].
  destruct sv, tv, overwrite; reflexivity.
Qed.

Lemma has_prop_merge_fields_kept overwrite l target key :
  has_prop key target = true →
  has_prop key (merge_fields overwrite l target) = true.
Proof.
  revert target. induction l as [|[k sv] rest IH]; intros target Hhas; simpl; [done|].
  apply IH. unfold has_prop in *. destruct (decide (k = key)) as [->|Hne].
  - rewrite get_prop_merge_prop_eq.
    destruct (get_prop key target) as [tv|]; [|done].
    pose proof (has_prop_merged_prop overwrite (Some tv) (Some sv)) as Hm.
    by destruct (merged_prop overwrite (Some tv) (Some sv)).
  - by rewrite get_prop_merge_prop_ne.
Qed.

Lemma has_prop_merge_kept overwrite target source key :
  has_prop key target = true →
  has_prop key (merge target source overwrite) = true.
Proof. rewrite merge_enumerable. apply has_prop_merge_fields_kept. Qed.

Lemma has_prop_merge overwrite target source key :
  NoDup (keys (enumerable source)) →
  has_prop key (merge target source overwrite)
  = has_prop key target || has_prop key (enumerable source).
Proof.
  intros Hnd. unfold has_prop. rewrite get_prop_merge by done.
  apply has_prop_merged_prop.
Qed.

End keys_facts.

Lemma getDefaultOption_again this fields :
  getDefaultOption this (snd (getDefaultOption this fields))
  = getDefaultOption this fields.
Proof.
  unfold getDefaultOption.
  destruct (clazz.isExtendedClass (ctor this)); simpl; [|done].
  destruct (fields !! addr this) as [d|] eqn:Hf; simpl.
  - by rewrite Hf.
  - by rewrite lookup_insert_eq.
Qed.

Lemma mergeDefaultAndTheme_fields `{!layout.Reconcile} this option ecModel fields :
  snd (mergeDefaultAndTheme this option ecModel fields)
  = snd (getDefaultOption this fields).
Proof.
  unfold mergeDefaultAndTheme. by destruct (getDefaultOption this fields).
Qed.

Section further_component_facts.

Context `{!layout.Reconcile}.
Import zrUtil.

(** X1. On a component without layout mode, applying the same patch a second
    time changes nothing: [mergeOption] with an option whose keys are
    distinct is idempotent. *)
Theorem mergeOption_idempotent this option ecModel :
  layoutMode_declared (layoutMode this) = false →
  distinct_fields option = true →
  mergeOption (mergeOption this option ecModel) option ecModel
  = mergeOption this option ecModel.
Proof.
  intros Hmode Hd. unfold mergeOption. cbn -[merge]. rewrite Hmode. cbn -[merge].
  rewrite (merge_settled true (merge (this_option this) (VObj option) true)
             (VObj option)); [done|].
  by apply (settled_merged true (this_option this) (VObj option)).
Qed.

(** X2. On a component without layout mode, running [mergeDefaultAndTheme]
    again on the option and the private fields it produced changes neither:
    completing an option that is already completed from the same theme and
    defaults (objects with distinct keys) is the identity. *)
Theorem mergeDefaultAndTheme_idempotent this option ecModel fields :
  layoutMode_declared (layoutMode this) = false →
  distinct_fields (enumerable (theme_get (getTheme ecModel) (mainType this)))
  = true →
  distinct_fields
    (enumerable (of_optional (fst (getDefaultOption this fields)))) = true →
  mergeDefaultAndTheme this
    (fst (mergeDefaultAndTheme this option ecModel fields)) ecModel
    (snd (mergeDefaultAndTheme this option ecModel fields))
  = mergeDefaultAndTheme this option ecModel fields.
Proof.
  intros Hmode Htheme Hdefault.
  rewrite mergeDefaultAndTheme_fields, mergeDefaultAndTheme_fst, Hmode.
  cbv zeta. unfold mergeDefaultAndTheme. rewrite Hmode.
  rewrite getDefaultOption_again.
  destruct (getDefaultOption this fields) as [d fields'] eqn:Hget.
  cbn -[merge enumerable] in Hdefault |- *.
  set (theme := theme_get (getTheme ecModel) (mainType this)) in *.
  rewrite (merge_settled false _ theme).
  - rewrite (merge_settled false _ (of_optional d)); [done|].
    by apply settled_merged.
  - apply settled_kept. by apply settled_merged.
Qed.

(** X3. On a component without layout mode, the option that
    [mergeDefaultAndTheme] produces from a user option with distinct keys
    holds everything the user supplied, at every depth: patching it with
    that same user option by [mergeOption] changes nothing (whatever the
    theme and the default option are). *)
Theorem mergeOption_after_mergeDefaultAndTheme this option ecModel fields :
  layoutMode_declared (layoutMode this) = false →
  distinct_fields option = true →
  let completed := fst (mergeDefaultAndTheme this option ecModel fields) in
  mergeOption (with_option this completed) option ecModel
  = with_option this completed.
Proof.
  intros Hmode Hd completed. unfold mergeOption. cbn -[merge].
  rewrite Hmode. cbn -[merge].
  rewrite (merge_settled true completed (VObj option)); [done|].
  unfold completed. rewrite mergeDefaultAndTheme_fst, Hmode. cbv zeta.
  apply settled_kept, settled_kept. by apply settled_fields_self.
Qed.

(** X4. On a component without layout mode, [mergeOption] never removes a
    property of the current option, whatever the patch; and when the keys of
    the patch are distinct, the properties afterwards are exactly those of
    the current option and those of the patch. *)
Theorem mergeOption_keys this option ecModel :
  layoutMode_declared (layoutMode this) = false →
  (∀ key, has_prop key (this_option this) = true →
          has_prop key (this_option (mergeOption this option ecModel)) = true)
  ∧ (NoDup (keys option) →
     ∀ key, has_prop key (this_option (mergeOption this option ecModel))
            = has_prop key (this_option this) || has_prop key option).
Proof.
  intros Hmode. unfold mergeOption. rewrite Hmode. cbn -[merge]. split.
  - intros key. apply has_prop_merge_kept.
  - intros Hnd key. by rewrite has_prop_merge.
Qed.

(** X5. On a component without layout mode, [mergeDefaultAndTheme] never
    removes a property of the user option; and when the keys of the theme's
    fragment and of the default option are distinct, the properties of the
    result are exactly those of the user option, of the theme's fragment and
    of the default option. *)
Theorem mergeDefaultAndTheme_keys this option ecModel fields :
  layoutMode_declared (layoutMode this) = false →
  let theme := enumerable (theme_get (getTheme ecModel) (mainType this)) in
  let defaultOption :=
    enumerable (of_optional (fst (getDefaultOption this fields))) in
  (∀ key, has_prop key option = true →
          has_prop key (fst (mergeDefaultAndTheme this option ecModel fields))
          = true)
  ∧ (NoDup (keys theme) → NoDup (keys defaultOption) →
     ∀ key, has_prop key (fst (mergeDefaultAndTheme this option ecModel fields))
            = has_prop key option || has_prop key theme
              || has_prop key defaultOption).
Proof.
  intros Hmode theme defaultOption.
  rewrite mergeDefaultAndTheme_fst, Hmode. cbv zeta. split.
  - intros key Hhas. by apply has_prop_merge_kept, has_prop_merge_kept.
  - intros Htheme Hdefault key. by rewrite !has_prop_merge.
Qed.

(** X6. What [mergeDefaultAndTheme] does to the private fields is what its
    call of [getDefaultOption] does: afterwards a call of [getDefaultOption]
    on the instance does not walk the chain and returns the default option
    that was merged in, leaving the fields as they are; the fields of every
    other instance are untouched, and for a directly declared class nothing
    is written at all. *)
Theorem mergeDefaultAndTheme_private_fields this option ecModel fields :
  let after := snd (mergeDefaultAndTheme this option ecModel fields) in
  walks_chain this after = false
  ∧ getDefaultOption this after = (fst (getDefaultOption this fields), after)
  ∧ (∀ other, addr other ≠ addr this →
              after !! addr other = fields !! addr other)
  ∧ (clazz.isExtendedClass (ctor this) = false → after = fields).
Proof.
  intros after. unfold after. rewrite mergeDefaultAndTheme_fields.
  split; [|split; [|split]].
  - unfold walks_chain, getDefaultOption.
    destruct (clazz.isExtendedClass (ctor this)); simpl; [|done].
    destruct (fields !! addr this) as [d|] eqn:Hf; simpl.
    + by rewrite Hf.
    + by rewrite lookup_insert_eq.
  - rewrite getDefaultOption_again. by destruct (getDefaultOption this fields).
  - intros other Hne. unfold getDefaultOption.
    destruct (clazz.isExtendedClass (ctor this)); simpl; [|done].
    destruct (fields !! addr this); simpl; [done|].
    by apply lookup_insert_ne.
  - intros Hext. unfold getDefaultOption. by rewrite Hext.
Qed.

End further_component_facts.

(** ** Further properties of the default option *)

Section optList_facts.

Import zrUtil.

Lemma get_prop_merge_optList_cons opt rest key :
  NoDup (keys opt) →
  get_prop key (merge_optList (opt :: rest))
  = merged_prop true (get_prop key (merge_optList rest)) (get_prop key opt).
Proof.
  intros Hnd. unfold merge_optList. cbn [foldr].
  by rewrite (get_prop_merge _ (VObj opt)).
Qed.

Lemma has_prop_merge_optList l key :
  Forall (fun opt => NoDup (keys opt)) l →
  has_prop key (merge_optList l) = true
  ↔ ∃ opt, opt ∈ l ∧ has_prop key opt = true.
Proof.
  induction l as [|opt rest IH]; intros Hnd.
  - split; [done|]. intros (opt & Hin & _). by apply elem_of_nil in Hin.
  - apply Forall_cons in Hnd as [Hopt Hrest].
    unfold has_prop at 1. rewrite get_prop_merge_optList_cons by done.
    rewrite has_prop_merged_prop. fold (has_prop key (merge_optList rest)).
    fold (has_prop key opt). rewrite orb_true_iff, (IH Hrest). split.
    + intros [(o & Hin & Hhas)|Hhas].
      * exists o. split; [by apply list_elem_of_further | done].
      * exists opt. split; [apply list_elem_of_here | done].
    + intros (o & Hin & Hhas). apply elem_of_cons in Hin as [->|Hin].
      * by right.
      * left. by exists o.
Qed.

Lemma get_prop_merge_optList_nearest before opt after key v :
  Forall (fun o => NoDup (keys o)) (before ++ [opt]) →
  Forall (fun o => get_prop key o = None) before →
  get_prop key opt = Some v → is_plain_object v = false →
  get_prop key (merge_optList (before ++ opt :: after)) = Some v.
Proof.
  intros Hnd Hbefore Hopt Hv.
  induction before as [|b before IH]; cbn [app] in *.
  - apply Forall_cons in Hnd as [Hnd _].
    rewrite get_prop_merge_optList_cons by done.
    rewrite Hopt. by apply merged_prop_replaced.
  - apply Forall_cons in Hnd as [Hb Hnd].
    apply Forall_cons in Hbefore as [Hkb Hbefore].
    rewrite get_prop_merge_optList_cons by done.
    by rewrite Hkb, IH.
Qed.

End optList_facts.

Lemma Constructor_chain_ind (P : clazz.Constructor → Prop) :
  (∀ ext declared deps, P (clazz.MkConstructor ext declared deps None)) →
  (∀ ext declared deps super,
     P super → P (clazz.MkConstructor ext declared deps (Some super))) →
  ∀ clz, P clz.
Proof.
  intros Hroot Hsub. fix IH 1.
  intros [ext declared deps [super|]]; [apply Hsub, IH | apply Hroot].
Qed.

(** The default options that the walk collects are those declared by the
    classes reached from [clz] through [superClass]. *)
Lemma elem_of_optList clz opt :
  opt ∈ optList clz
  ↔ ∃ c, on_chain clz c ∧ clazz.prototype_defaultOption c = Some opt.
Proof.
  split.
  - induction clz as [ext declared deps|ext declared deps super IH]
      using Constructor_chain_ind; simpl; destruct declared as [o|]; intros Hin.
    + apply list_elem_of_singleton in Hin as ->.
      eexists. split; [apply on_chain_here | done].
    + by apply elem_of_nil in Hin.
    + apply elem_of_cons in Hin as [->|Hin].
      * eexists. split; [apply on_chain_here | done].
      * destruct (IH Hin) as (c & Hchain & Hdecl).
        exists c. split; [|done]. by eapply on_chain_super.
    + destruct (IH Hin) as (c & Hchain & Hdecl).
      exists c. split; [|done]. by eapply on_chain_super.
  - intros (c & Hchain & Hdecl).
    induction Hchain as [clz|clz super c Hsuper Hchain IH].
    + destruct clz as [ext declared deps super]. simpl in *. subst declared.
      apply list_elem_of_here.
    + specialize (IH Hdecl).
      destruct clz as [ext declared deps super']. simpl in *. subst super'.
      destruct declared; [by apply list_elem_of_further | done].
Qed.

Lemma optList_distinct_on_chain clz :
  Forall (fun opt => NoDup (keys opt)) (optList clz) →
  ∀ c opt, on_chain clz c → clazz.prototype_defaultOption c = Some opt →
           NoDup (keys opt).
Proof.
  intros Hnd c opt Hchain Hdecl. rewrite Forall_forall in Hnd.
  apply Hnd, elem_of_optList. by exists c.
Qed.

(** X7. The default option that a first call of [getDefaultOption] computes
    for an instance of an extended class has exactly the properties that
    some class along the [superClass] chain (the class itself or one
    reached from it through [superClass]) declares in its [defaultOption],
    the declared objects having distinct keys: no declared property is
    lost, none is invented. *)
Theorem getDefaultOption_keys this fields :
  clazz.isExtendedClass (ctor this) = true → fields !! addr this = None →
  (∀ c opt, on_chain (ctor this) c → clazz.prototype_defaultOption c = Some opt →
            NoDup (keys opt)) →
  ∃ defaultOption,
    fst (getDefaultOption this fields) = Some defaultOption
    ∧ ∀ key, has_prop key defaultOption = true
             ↔ ∃ c opt, on_chain (ctor this) c
                        ∧ clazz.prototype_defaultOption c = Some opt
                        ∧ has_prop key opt = true.
Proof.
  intros Hext Hnone Hnd. exists (merge_optList (optList (ctor this))). split.
  - unfold getDefaultOption. by rewrite Hext, Hnone.
  - intros key. rewrite has_prop_merge_optList.
    + split.
      * intros (opt & Hin & Hhas). apply elem_of_optList in Hin as (c & Hc & Hd).
        by exists c, opt.
      * intros (c & opt & Hc & Hd & Hhas). exists opt. split; [|done].
        apply elem_of_optList. by exists c.
    + apply Forall_forall. intros opt Hin.
      apply elem_of_optList in Hin as (c & Hc & Hd). by eapply Hnd.
Qed.

(** X8. In the default option that a first call of [getDefaultOption]
    computes for an instance of an extended class, a property is the one
    declared by the nearest class up the [superClass] chain that declares
    it, when what that class declares for it is not a plain object: classes
    further up are overridden. *)
Theorem getDefaultOption_nearest_class this fields before opt after key v :
  clazz.isExtendedClass (ctor this) = true → fields !! addr this = None →
  optList (ctor this) = (before ++ opt :: after)%list →
  Forall (fun o => NoDup (keys o)) (before ++ [opt]) →
  Forall (fun o => get_prop key o = None) before →
  get_prop key opt = Some v → is_plain_object v = false →
  ∃ defaultOption,
    fst (getDefaultOption this fields) = Some defaultOption
    ∧ get_prop key defaultOption = Some v.
Proof.
  intros Hext Hnone Hchain Hnd Hbefore Hopt Hv.
  exists (merge_optList (optList (ctor this))). split.
  - unfold getDefaultOption. by rewrite Hext, Hnone.
  - rewrite Hchain. by apply get_prop_merge_optList_nearest.
Qed.

(** ** Further properties of the dependencies *)

Lemma indexOf_head array v : head array = Some v → zrUtil.indexOf array v = 0%Z.
Proof.
  destruct array as [|x rest]; simpl; [done|]. intros [= ->].
  by rewrite decide_True.
Qed.

(** X9. When the main type is not "dataset" and the first dependency that
    the registered constructors declare is already a dataset, "dataset" is
    put in front all the same, so that the result starts with it twice. *)
Theorem getDependencies_repeats_leading_dataset registered componentType :
  componentType ≠ "dataset" →
  head (declared_dependencies registered componentType) = Some "dataset" →
  getDependencies registered componentType
  = "dataset" :: declared_dependencies registered componentType
  ∧ ∃ others, getDependencies registered componentType
              = "dataset" :: "dataset" :: others.
Proof.
  intros Hne Hhead.
  assert (Hget : getDependencies registered componentType
                 = "dataset" :: declared_dependencies registered componentType).
  { apply getDependencies_prepends; [done|]. by rewrite indexOf_head. }
  split; [done|]. rewrite Hget.
  destruct (declared_dependencies registered componentType) as [|d others];
    [done|].
  injection Hhead as ->. by exists others.
Qed.

(** X10. A main type is in [getDependencies(componentType)] exactly when it
    is "dataset" and [componentType] is another type, or it is the main
    type of a dependency declared by a constructor registered under
    [componentType]: every declared dependency is reported and nothing
    else but the dataset is. *)
Theorem getDependencies_elem registered componentType m :
  m ∈ getDependencies registered componentType
  ↔ (componentType ≠ "dataset" ∧ m = "dataset")
    ∨ ∃ clz deps type,
        clz ∈ clazz.getClassesByMainType registered componentType
        ∧ clazz.prototype_dependencies clz = Some deps
        ∧ type ∈ deps
        ∧ clazz.main (clazz.parseClassType type) = m.
Proof.
  rewrite <- elem_of_declared_dependencies.
  destruct (decide (componentType = "dataset")) as [->|Hne].
  - rewrite getDependencies_of_dataset. split; [by right|].
    by intros [[Hne _]|Hin].
  - destruct (Z_le_gt_dec
                (zrUtil.indexOf (declared_dependencies registered componentType)
                   "dataset") 0) as [Hle|Hgt].
    + rewrite getDependencies_prepends by done. rewrite elem_of_cons.
      split; intros [H|H]; try (by right); left; [done | by destruct H].
    + rewrite getDependencies_leaves by lia. split; [by right|].
      intros [[_ ->]|Hin]; [|done].
      destruct (decide ("dataset" ∈ declared_dependencies registered componentType))
        as [Hin|Hnot]; [done|].
      rewrite indexOf_absent in Hgt by done. lia.
Qed.


(** ** The further properties at sample inputs *)

(** X1 at a component whose option has a nested [style]. *)
Lemma mergeOption_idempotent_witness :
  @mergeOption samples.keep_target
    (@mergeOption samples.keep_target
       (nested_samples.styled [("style", VObj [("width", VNum 2)])])
       nested_samples.user_style nested_samples.theme_style)
    nested_samples.user_style nested_samples.theme_style
  = @mergeOption samples.keep_target
      (nested_samples.styled [("style", VObj [("width", VNum 2)])])
      nested_samples.user_style nested_samples.theme_style.
Proof.
  apply (@mergeOption_idempotent samples.keep_target); reflexivity.
Defined.

(** X2 at the user option, the theme and the class with nested styles. *)
Lemma mergeDefaultAndTheme_idempotent_witness :
  @mergeDefaultAndTheme samples.keep_target (nested_samples.styled [])
    (fst (@mergeDefaultAndTheme samples.keep_target (nested_samples.styled [])
            nested_samples.user_style nested_samples.theme_style ∅))
    nested_samples.theme_style
    (snd (@mergeDefaultAndTheme samples.keep_target (nested_samples.styled [])
            nested_samples.user_style nested_samples.theme_style ∅))
  = @mergeDefaultAndTheme samples.keep_target (nested_samples.styled [])
      nested_samples.user_style nested_samples.theme_style ∅.
Proof.
  apply (@mergeDefaultAndTheme_idempotent samples.keep_target); reflexivity.
Defined.

(** X3 at the same inputs. *)
Lemma mergeOption_after_mergeDefaultAndTheme_witness :
  @mergeOption samples.keep_target
    (with_option (nested_samples.styled [])
       (fst (@mergeDefaultAndTheme samples.keep_target (nested_samples.styled [])
               nested_samples.user_style nested_samples.theme_style ∅)))
    nested_samples.user_style nested_samples.theme_style
  = with_option (nested_samples.styled [])
      (fst (@mergeDefaultAndTheme samples.keep_target (nested_samples.styled [])
              nested_samples.user_style nested_samples.theme_style ∅)).
Proof.
  apply (@mergeOption_after_mergeDefaultAndTheme samples.keep_target
           (nested_samples.styled []) nested_samples.user_style
           nested_samples.theme_style ∅); reflexivity.
Defined.

(** X4 at the current option [{style: {width: 2}}] and the user option as
    patch. *)
Lemma mergeOption_keys_witness :
  has_prop "style"
    (this_option
       (@mergeOption samples.keep_target
          (nested_samples.styled [("style", VObj [("width", VNum 2)])])
          nested_samples.user_style nested_samples.theme_style))
  = true
  ∧ has_prop "b"
      (this_option
         (@mergeOption samples.keep_target
            (nested_samples.styled [("style", VObj [("width", VNum 2)])])
            nested_samples.user_style nested_samples.theme_style))
    = has_prop "b" [("style", VObj [("width", VNum 2)])]
      || has_prop "b" nested_samples.user_style.
Proof.
  destruct (@mergeOption_keys samples.keep_target
              (nested_samples.styled [("style", VObj [("width", VNum 2)])])
              nested_samples.user_style nested_samples.theme_style eq_refl)
    as [Hkept Hexact].
  split.
  - apply Hkept. reflexivity.
  - apply Hexact. by_evaluation.
Defined.

(** X5 at the user option, the theme and the class with nested styles. *)
Lemma mergeDefaultAndTheme_keys_witness :
  has_prop "a"
    (fst (@mergeDefaultAndTheme samples.keep_target (nested_samples.styled [])
            nested_samples.user_style nested_samples.theme_style ∅))
  = true
  ∧ has_prop "c"
      (fst (@mergeDefaultAndTheme samples.keep_target (nested_samples.styled [])
              nested_samples.user_style nested_samples.theme_style ∅))
    = true.
Proof.
  destruct (@mergeDefaultAndTheme_keys samples.keep_target
              (nested_samples.styled []) nested_samples.user_style
              nested_samples.theme_style ∅ eq_refl)
    as [Hkept Hexact].
  split.
  - apply Hkept. reflexivity.
  - rewrite Hexact; [reflexivity | by_evaluation | by_evaluation].
Defined.

(** X6 at an instance of [Derived] beside another one, and at an instance of
    a directly declared class. *)
Lemma mergeDefaultAndTheme_private_fields_witness :
  snd (@mergeDefaultAndTheme samples.keep_target
         (samples.instance 1 samples.Derived [] LayoutMode_undefined)
         [("a", VNum 1)] samples.theme_ab ∅) !! 2%positive
  = (∅ : gmap positive obj) !! 2%positive
  ∧ snd (@mergeDefaultAndTheme samples.keep_target
           (samples.instance 1 samples.direct_abc [] LayoutMode_undefined)
           [("a", VNum 1)] samples.theme_ab ∅)
    = ∅.
Proof.
  split.
  - apply (proj1 (proj2 (proj2
             (@mergeDefaultAndTheme_private_fields samples.keep_target
                (samples.instance 1 samples.Derived [] LayoutMode_undefined)
                [("a", VNum 1)] samples.theme_ab ∅)))
             (samples.instance 2 samples.Derived [] LayoutMode_undefined)).
    by_evaluation.
  - apply (proj2 (proj2 (proj2
             (@mergeDefaultAndTheme_private_fields samples.keep_target
                (samples.instance 1 samples.direct_abc [] LayoutMode_undefined)
                [("a", VNum 1)] samples.theme_ab ∅)))).
    reflexivity.
Defined.

(** X7 at an instance of [Derived2]: [bbb], declared by [Derived], the
    class above, is a property of the default option. *)
Lemma getDefaultOption_keys_witness :
  ∃ defaultOption,
    fst (getDefaultOption
           (samples.instance 1 samples.Derived2 [] LayoutMode_undefined) ∅)
    = Some defaultOption
    ∧ has_prop "bbb" defaultOption = true.
Proof.
  destruct (getDefaultOption_keys
              (samples.instance 1 samples.Derived2 [] LayoutMode_undefined) ∅
              eq_refl (lookup_empty _))
    as (defaultOption & Hget & Hkeys).
  - apply optList_distinct_on_chain. by_evaluation.
  - exists defaultOption. split; [exact Hget|].
    apply Hkeys. exists samples.Derived, [("bbb", VNum 2)].
    split; [|split; reflexivity].
    apply (on_chain_super samples.Derived2 samples.Derived samples.Derived eq_refl).
    apply on_chain_here.
Defined.

(** X8 at an instance of [Derived2]: [bbb] comes from [Derived], the class
    next above. *)
Lemma getDefaultOption_nearest_class_witness :
  ∃ defaultOption,
    fst (getDefaultOption
           (samples.instance 1 samples.Derived2 [] LayoutMode_undefined) ∅)
    = Some defaultOption
    ∧ get_prop "bbb" defaultOption = Some (VNum 2).
Proof.
  apply (getDefaultOption_nearest_class
           (samples.instance 1 samples.Derived2 [] LayoutMode_undefined) ∅
           [[("aaa", VNum 9)]] [("bbb", VNum 2)] [[("aaa", VNum 1)]]
           "bbb" (VNum 2));
    first [reflexivity | by_evaluation].
Defined.

(** X9 at a series class whose first dependency is a dataset. *)
Lemma getDependencies_repeats_leading_dataset_witness :
  getDependencies nested_samples.series_on_dataset "series"
  = "dataset" :: declared_dependencies nested_samples.series_on_dataset "series".
Proof.
  apply (getDependencies_repeats_leading_dataset
           nested_samples.series_on_dataset "series");
    first [reflexivity | by_evaluation].
Defined.

(** X10 at the axis classes: the grid is reported, and so is the dataset. *)
Lemma getDependencies_elem_witness :
  "grid" ∈ getDependencies samples.axis_classes "xAxis"
  ∧ "dataset" ∈ getDependencies samples.axis_classes "xAxis".
Proof.
  split.
  - apply (getDependencies_elem samples.axis_classes "xAxis" "grid"). right.
    exists (clazz.MkConstructor true None (Some ["grid"]) None), ["grid"], "grid".
    split; [apply list_elem_of_here|].
    split; [reflexivity|]. split; [apply list_elem_of_here | reflexivity].
  - apply (getDependencies_elem samples.axis_classes "xAxis" "dataset"). left.
    split; [by_evaluation | reflexivity].
Defined.
